(** * Verification of the advisory trading strategies of BackTrader-Agent

    Shallow embedding of the decision logic of
    [examples/advisory_trading_strategy_v2.py] (class
    [AdvisoryTradingStrategyV2]), of the signal combination of
    [examples/advisory_trading_strategy_v3.py] and of
    [llm_advisory/bt_advisory.py] ([BacktraderLLMAdvisory.get_advice]).

    Modelling conventions:
    - Python floats (prices, confidences, percentages, cash) are modelled as
      exact rationals [Q]; every claim below is about comparisons that are
      far from any rounding boundary at the inputs used.
    - Python [int(x)] on a float truncates towards zero: [py_int].
    - A Python signal dict [{"signal": .., "confidence": .., "type": ..}] is
      the record [Signal]; the weight dict is a [gmap string Q] read with
      [dict.get(key, default)].
    - The [reasoning] strings and the [self.log] calls are observability
      only; the reason a risk exit fires is kept as the tag [RiskReason],
      one per log message of [_should_sell_due_to_risk].
    - The broker ([self.broker.cash], [self.position.size]) is part of the
      strategy state; an order placed by [self.buy]/[self.sell] is returned
      as the [Order] the step emits and recorded in [self.order]. *)

From Stdlib Require Import ZArith QArith Qabs Lqa String List.
From stdpp Require Import base gmap strings.
Import ListNotations.

Open Scope Q_scope.

(** ** Python helpers *)

(** [a < b] on floats. *)
Definition qlt (a b : Q) : bool := negb (Qle_bool b a).

(** Python's built-in [max(a, b)]: the first argument unless the second is
    strictly larger. *)
Definition py_max (a b : Q) : Q := if qlt a b then b else a.

(** Python's [int(x)] on a float: truncation towards zero. *)
Definition py_int (x : Q) : Z := Z.quot (Qnum x) (Zpos (Qden x)).

(** [dict.get(key, default)]. *)
Definition dict_get (m : gmap string Q) (k : string) (d : Q) : Q :=
  match m !! k with Some v => v | None => d end.

(** ** Signals and their combination ([_combine_signals], v2) *)

Record Signal := mkSignal {
  signal : string;      (** [signal["signal"]]: "buy", "sell", "none", ... *)
  confidence : Q;       (** [signal["confidence"]] *)
  stype : string        (** [signal["type"]]: the weight class *)
}.

(** The result dict of [_combine_signals] / [_generate_advisory_signal]. *)
Record Advice := mkAdvice {
  advice_signal : string;
  advice_confidence : Q
}.

(** Accumulator of the loop of [_combine_signals]:
    [(buy_votes, sell_votes, total_buy_confidence, total_sell_confidence)]. *)
Record Acc := mkAcc { buy_votes : nat; sell_votes : nat;
                      total_buy : Q; total_sell : Q }.

Definition acc0 : Acc := mkAcc 0 0 0 0.

(** One iteration of the [for signal in signals] loop of
    [AdvisoryTradingStrategyV2._combine_signals] (default weight 0.1). The
    scores are exact sums here; Python's float [+=] rounds, so results
    that depend on the order of additions are out of this model's reach. *)
Definition combine_step_v2 (weights : gmap string Q) (a : Acc) (s : Signal) : Acc :=
  let weight := dict_get weights (stype s) (1#10) in
  if String.eqb (signal s) "buy" then
    mkAcc (S (buy_votes a)) (sell_votes a)
          (total_buy a + confidence s * weight) (total_sell a)
  else if String.eqb (signal s) "sell" then
    mkAcc (buy_votes a) (S (sell_votes a))
          (total_buy a) (total_sell a + confidence s * weight)
  else a.

(** [AdvisoryTradingStrategyV2._combine_signals]; [threshold] is
    [self.params.signal_confidence_threshold]. *)
Definition combine_signals_v2 (threshold : Q) (signals : list Signal)
    (weights : gmap string Q) : Advice :=
  let a := fold_left (combine_step_v2 weights) signals acc0 in
  if (1 <=? buy_votes a)%nat && qlt threshold (total_buy a)
     && qlt (total_sell a) (total_buy a) then
    mkAdvice "buy" (total_buy a)
  else if (1 <=? sell_votes a)%nat && qlt threshold (total_sell a)
     && qlt (total_buy a) (total_sell a) then
    mkAdvice "sell" (total_sell a)
  else
    mkAdvice "none" (py_max (total_buy a) (total_sell a)).

(** ** Strategy state and parameters (v2) *)

Record Params := mkParams {
  trade_size : Z;
  signal_confidence_threshold : Q;
  max_position_ratio : Q;
  min_trade_value : Q;
  stop_loss_pct : Q;
  take_profit_pct : Q;
  trailing_stop_pct : Q;
  allow_short_selling : bool
}.

(** The defaults of [AdvisoryTradingStrategyV2.params]. *)
Definition params_v2 : Params :=
  mkParams 100 (28#100) (8#10) 1000 (4#100) (12#100) (25#1000) false.

Record Strat := mkStrat {
  pos_size : Z;          (** [self.position.size]; [self.position] is truthy iff non-zero *)
  entry_price : Q;       (** [self.entry_price] *)
  highest_price : Q;     (** [self.highest_price] *)
  order_pending : bool;  (** [self.order is not None] *)
  cash : Q;              (** [self.broker.cash] *)
  current_signal : string;
  current_confidence : Q
}.

(** [__init__]: flat, [entry_price = highest_price = 0.0], no order. *)
Definition init_strat (c : Q) : Strat := mkStrat 0 0 0 false c "none" 0.

Definition set_highest (s : Strat) (h : Q) : Strat :=
  mkStrat (pos_size s) (entry_price s) h (order_pending s) (cash s)
          (current_signal s) (current_confidence s).
Definition set_entry_highest (s : Strat) (p : Q) : Strat :=
  mkStrat (pos_size s) p p (order_pending s) (cash s)
          (current_signal s) (current_confidence s).
Definition set_order (s : Strat) (b : bool) : Strat :=
  mkStrat (pos_size s) (entry_price s) (highest_price s) b (cash s)
          (current_signal s) (current_confidence s).
Definition set_current (s : Strat) (sg : string) (c : Q) : Strat :=
  mkStrat (pos_size s) (entry_price s) (highest_price s) (order_pending s)
          (cash s) sg c.

(** An order handed to the broker: [self.buy(size=..)] / [self.sell(size=..)]. *)
Inductive Order := Buy (size : Z) | Sell (size : Z).

(** The rule whose log message [_should_sell_due_to_risk] prints before it
    returns [True]. *)
Inductive RiskReason := StopLoss | TakeProfit | TrailingStop.

(** [_can_trade]. *)
Definition can_trade (p : Params) (s : Strat) (current_price : Q) : bool :=
  if order_pending s then false
  else
    let min_shares := Z.max 1 (py_int (min_trade_value p / current_price)) in
    let max_shares := py_int (cash s * max_position_ratio p / current_price) in
    (min_shares <=? max_shares)%Z.

(** [_should_sell_due_to_risk]: [Some r] is "returns True after logging the
    message of rule r", [None] is "returns False"; the state carries the
    update of [self.highest_price]. *)
Definition should_sell_due_to_risk (p : Params) (s : Strat) (current_price : Q)
    : option RiskReason * Strat :=
  if (pos_size s =? 0)%Z then (None, s)
  else if Qle_bool current_price (entry_price s * (1 - stop_loss_pct p)) then
    (Some StopLoss, s)
  else if Qle_bool (entry_price s * (1 + take_profit_pct p)) current_price then
    (Some TakeProfit, s)
  else
    let s1 := if qlt (highest_price s) current_price
              then set_highest s current_price else s in
    let trailing_stop_price := highest_price s1 * (1 - trailing_stop_pct p) in
    if Qle_bool current_price trailing_stop_price then (Some TrailingStop, s1)
    else (None, s1).

(** Lines 394-416 of [next] ("执行交易决策"): the decision taken from the
    advisory signal once no risk exit fired. *)
Definition trade_decision (p : Params) (s : Strat) (current_price : Q)
    (sg : string) : Strat * option Order :=
  let max_shares := py_int (cash s * max_position_ratio p / current_price) in
  if String.eqb sg "buy" && (pos_size s =? 0)%Z then
    let size := Z.min (trade_size p) max_shares in
    if (0 <? size)%Z then (set_order s true, Some (Buy size)) else (s, None)
  else if String.eqb sg "sell" then
    if negb (pos_size s =? 0)%Z then
      (set_order s true, Some (Sell (pos_size s)))
    else if allow_short_selling p then
      let size := Z.min (trade_size p) max_shares in
      if (0 <? size)%Z then (set_order s true, Some (Sell size)) else (s, None)
    else (s, None)
  else (s, None).

(** [AdvisoryTradingStrategyV2.next]; [adv] is the result of
    [self._generate_advisory_signal()] for the current bar. *)
Definition next (p : Params) (s : Strat) (current_price : Q) (adv : Advice)
    : Strat * option Order :=
  if negb (can_trade p s current_price) then (s, None)
  else
    let '(risk, s1) :=
      if (pos_size s =? 0)%Z then (None, s)
      else should_sell_due_to_risk p s current_price in
    match risk with
    | Some _ => (set_order s1 true, Some (Sell (pos_size s1)))
    | None =>
        let s2 := set_current s1 (advice_signal adv) (advice_confidence adv) in
        trade_decision p s2 current_price (advice_signal adv)
    end.

(** ** Order notifications ([notify_order], v2 and v3) *)

Inductive OrderStatus := Submitted | Accepted | Completed | Canceled | Margin | Rejected.

Record OrderEvent := mkEvent {
  ev_status : OrderStatus;
  ev_isbuy : bool;         (** [order.isbuy()] *)
  ev_price : Q;            (** [order.executed.price] *)
  ev_size : Z              (** [abs(order.executed.size)] *)
}.

(** [notify_order], without the trade statistics counters
    ([trade_count], [buy_count], [sell_count], [successful_trades]), which
    no decision reads. *)
Definition notify_order (s : Strat) (e : OrderEvent) : Strat :=
  match ev_status e with
  | Submitted | Accepted => s
  | Completed =>
      set_order (if ev_isbuy e then set_entry_highest s (ev_price e) else s) false
  | Canceled | Margin | Rejected => set_order s false
  end.

(** The broker side of a completed order (backtrader, not this repository):
    the position size moves by the executed size before [notify_order] is
    called. *)
Definition broker_fill (s : Strat) (e : OrderEvent) : Strat :=
  match ev_status e with
  | Completed =>
      mkStrat (pos_size s + (if ev_isbuy e then ev_size e else - ev_size e))%Z
              (entry_price s) (highest_price s) (order_pending s) (cash s)
              (current_signal s) (current_confidence s)
  | _ => s
  end.

Definition on_order (s : Strat) (e : OrderEvent) : Strat :=
  notify_order (broker_fill s e) e.

(** The trailing-stop trigger price of a state. *)
Definition trailing_trigger (p : Params) (s : Strat) : Q :=
  highest_price s * (1 - trailing_stop_pct p).

(** Successive evaluations of the risk check along a price series while the
    position stays open: the states after each check that did not fire. *)
Fixpoint risk_trace (p : Params) (s : Strat) (prices : list Q) : list Strat :=
  match prices with
  | [] => []
  | x :: xs =>
      match should_sell_due_to_risk p s x with
      | (None, s1) => s1 :: risk_trace p s1 xs
      | (Some _, _) => []
      end
  end.

(** A list whose consecutive elements are related by [R]. *)
Fixpoint chain (R : Q -> Q -> Prop) (l : list Q) : Prop :=
  match l with
  | x :: ((y :: _) as t) => R x y /\ chain R t
  | _ => True
  end.

(** ** Signal combination of [AdvisoryTradingStrategyV3] *)

(** One iteration of the loop of [AdvisoryTradingStrategyV3._combine_signals]
    (default weight 0.05); a ["trend_weak"] signal multiplies the scores
    accumulated so far by 0.8. *)
Definition combine_step_v3 (weights : gmap string Q) (a : Acc) (s : Signal) : Acc :=
  let weight := dict_get weights (stype s) (5#100) in
  if String.eqb (signal s) "buy" || String.eqb (signal s) "trend_strong" then
    mkAcc (S (buy_votes a)) (sell_votes a)
          (total_buy a + confidence s * weight) (total_sell a)
  else if String.eqb (signal s) "sell" then
    mkAcc (buy_votes a) (S (sell_votes a))
          (total_buy a) (total_sell a + confidence s * weight)
  else if String.eqb (signal s) "trend_weak" then
    mkAcc (buy_votes a) (sell_votes a) (total_buy a * (8#10)) (total_sell a * (8#10))
  else a.

(** [AdvisoryTradingStrategyV3._combine_signals]; [volume_confirm] is the
    result of [self._check_volume_confirmation()]. *)
Definition combine_signals_v3 (threshold : Q) (volume_confirm : bool)
    (signals : list Signal) (weights : gmap string Q) : Advice :=
  let a0 := fold_left (combine_step_v3 weights) signals acc0 in
  let a := if volume_confirm then a0
           else mkAcc (buy_votes a0) (sell_votes a0)
                      (total_buy a0 * (7#10)) (total_sell a0 * (7#10)) in
  let min_votes := 2%nat in
  if (min_votes <=? buy_votes a)%nat && qlt threshold (total_buy a)
     && qlt (total_sell a * (12#10)) (total_buy a) then
    mkAdvice "buy" (total_buy a)
  else if (min_votes <=? sell_votes a)%nat && qlt threshold (total_sell a)
     && qlt (total_buy a * (12#10)) (total_sell a) then
    mkAdvice "sell" (total_sell a)
  else
    mkAdvice "none" (py_max (total_buy a) (total_sell a)).

(** The weight table of [AdvisoryTradingStrategyV3._generate_advisory_signal]. *)
Definition weights_v3 : gmap string Q :=
  <["trend" := 25#100]> (<["rsi" := 15#100]> (<["macd" := 12#100]>
  (<["bollinger" := 10#100]> (<["momentum" := 8#100]> (<["obv" := 12#100]>
  (<["stoch" := 8#100]> (<["adx" := 6#100]> (<["ichimoku" := 4#100]> ∅)))))))).

(** ** [BacktraderLLMAdvisory.get_advice] *)

(** Values of the returned Python dict. *)
Inductive PyVal := VStr (s : string) | VNum (q : Q).

(** A Python dict literal, keys in insertion order. *)
Definition PyDict := list (string * PyVal).

Definition py_lookup (d : PyDict) (k : string) : option PyVal :=
  match List.find (fun kv => String.eqb (fst kv) k) d with
  | Some (_, v) => Some v
  | None => None
  end.

(** What [advisor.update_state(state)] (and the construction of the state
    before it, inside the same [try]) does: raise an [Exception] with the
    given message, or return a state whose messages have these contents. *)
Inductive UpdateOutcome := Raises (msg : string) | Returns (contents : list string).

(** [str.lower()] on the ASCII letters. *)
Definition lower_ascii (c : Ascii.ascii) : Ascii.ascii :=
  let n := Ascii.nat_of_ascii c in
  if (65 <=? n)%nat && (n <=? 90)%nat then Ascii.ascii_of_nat (n + 32) else c.

Fixpoint str_lower (s : string) : string :=
  match s with
  | EmptyString => EmptyString
  | String c r => String (lower_ascii c) (str_lower r)
  end.

(** [word in text]. *)
Definition str_contains (word text : string) : bool :=
  match String.index 0 word text with Some _ => true | None => false end.

Definition any_in (words : list string) (text : string) : bool :=
  existsb (fun w => str_contains w text) words.

(** The keyword parsing of the last message. *)
Definition parse_advice (reasoning : string) : PyDict :=
  let r := str_lower reasoning in
  let '(sg, conf) :=
    if any_in ["bullish"; "buy"; "上涨"; "看涨"] r then ("bullish", 7#10)
    else if any_in ["bearish"; "sell"; "下跌"; "看跌"] r then ("bearish", 7#10)
    else if any_in ["neutral"; "hold"; "中性"] r then ("neutral", 5#10)
    else ("none", 0) in
  [("signal", VStr sg); ("confidence", VNum conf); ("reasoning", VStr reasoning)].

(** [BacktraderLLMAdvisory.get_advice]: [advisors] is [self.advisor_names],
    each advisor given by the outcome of its [update_state]. *)
Definition get_advice (advisors : gmap string UpdateOutcome) (advisor_name : string)
    : PyDict :=
  match advisors !! advisor_name with
  | None =>
      [("signal", VStr "none");
       ("reasoning", VStr ("Advisor '" ++ advisor_name ++ "' not found"))]
  | Some (Raises msg) =>
      [("signal", VStr "none"); ("reasoning", VStr ("Error getting advice: " ++ msg))]
  | Some (Returns contents) =>
      match List.last (map Some contents) None with
      | Some reasoning => parse_advice reasoning
      | None => [("signal", VStr "none"); ("reasoning", VStr "No response from advisor")]
      end
  end.

(** ** Scenario data *)

(** Weights [{trend: 0.4, rsi: 0.3, macd: 0.3}] and signals
    [{trend: buy 0.8, rsi: buy 0.6, macd: sell 0.5}]. *)
Definition scen_weights : gmap string Q :=
  <["trend" := 4#10]> (<["rsi" := 3#10]> (<["macd" := 3#10]> ∅)).

Definition scen_signals : list Signal :=
  [mkSignal "buy" (8#10) "trend"; mkSignal "buy" (6#10) "rsi";
   mkSignal "sell" (5#10) "macd"].

(** The state after [next] bought 96 shares at 50 from 6000 in cash
    ([int(6000 * 0.8 / 50) = 96]) and the order filled: 1200 left in cash. *)
Definition long_low_cash : Strat := mkStrat 96 50 50 false 1200 "none" 0.

(** A long position of 100 shares bought at 100 with 40000 left in cash. *)
Definition long_rich : Strat := mkStrat 100 100 100 false 40000 "none" 0.

(** A short position of 100 shares (short selling enabled). *)
Definition params_v2_short : Params :=
  mkParams 100 (28#100) (8#10) 1000 (4#100) (12#100) (25#1000) true.

Definition short_rich : Strat := mkStrat (-100) 100 100 false 40000 "none" 0.

(** The signals of one v3 bar in the order [_generate_advisory_signal]
    builds them (trend, rsi, macd, bollinger, momentum, obv, stoch, adx,
    ichimoku), with a weak ADX reading before a bullish Ichimoku signal. *)
Definition v3_bar : list Signal :=
  [mkSignal "buy" (85#100) "trend"; mkSignal "buy" (8#10) "rsi";
   mkSignal "buy" (7#10) "macd"; mkSignal "none" (15#100) "bollinger";
   mkSignal "buy" (45#100) "momentum"; mkSignal "none" (15#100) "obv";
   mkSignal "none" (1#10) "stoch"; mkSignal "trend_weak" (1#10) "adx";
   mkSignal "buy" (5#10) "ichimoku"].

(** The same signals with the Ichimoku signal moved before the ADX one. *)
Definition v3_bar_permuted : list Signal :=
  [mkSignal "buy" (85#100) "trend"; mkSignal "buy" (8#10) "rsi";
   mkSignal "buy" (7#10) "macd"; mkSignal "none" (15#100) "bollinger";
   mkSignal "buy" (45#100) "momentum"; mkSignal "none" (15#100) "obv";
   mkSignal "none" (1#10) "stoch"; mkSignal "buy" (5#10) "ichimoku";
   mkSignal "trend_weak" (1#10) "adx"].

(** ** Indicator signals of [AdvisoryTradingStrategyV2] *)

(** Python's built-in [min(a, b)]: the first argument unless the second is
    strictly smaller. *)
Definition py_min (a b : Q) : Q := if qlt b a then b else a.

(** The indicator parameters of [AdvisoryTradingStrategyV2.params]. *)
Record IndParams := mkIndParams {
  rsi_oversold : Q;
  rsi_overbought : Q;
  bollinger_upper_threshold : Q;
  bollinger_lower_threshold : Q;
  kdj_oversold : Q;
  kdj_overbought : Q;
  momentum_threshold : Q;
  trend_threshold : Q
}.

Definition ind_params_v2 : IndParams :=
  mkIndParams 40 60 (985#1000) (1015#1000) 25 75 (8#10) (4#10).

(** In each generator, [ready] is the negation of the length guard
    ([len(indicator) >= 1], or [>= 2] for MACD, [>= 3] bars for momentum).
    A zero divisor raises [ZeroDivisionError] in Python, where [Q]'s
    division gives 0; the properties below are about the signals the
    functions return. *)

(** [_generate_trend_signal]. *)
Definition trend_signal_v2 (ip : IndParams) (ready : bool) (sma_short sma_long : Q) : Signal :=
  if negb ready then mkSignal "none" 0 "trend" else
  let diff_pct := (sma_short - sma_long) / sma_long * 100 in
  if qlt (trend_threshold ip) diff_pct then
    mkSignal "buy" (py_min (8#10) (diff_pct * (1#10) + (35#100))) "trend"
  else if qlt diff_pct (- trend_threshold ip) then
    mkSignal "sell" (py_min (8#10) (Qabs diff_pct * (1#10) + (35#100))) "trend"
  else mkSignal "none" (25#100) "trend".

(** [_generate_rsi_signal]. *)
Definition rsi_signal_v2 (ip : IndParams) (ready : bool) (rsi_value : Q) : Signal :=
  if negb ready then mkSignal "none" 0 "rsi" else
  if qlt rsi_value (rsi_oversold ip) then
    mkSignal "buy" (py_min (8#10)
      ((rsi_oversold ip - rsi_value) / rsi_oversold ip * (8#10) + (2#10))) "rsi"
  else if qlt (rsi_overbought ip) rsi_value then
    mkSignal "sell" (py_min (8#10)
      ((rsi_value - rsi_overbought ip) / (100 - rsi_overbought ip) * (8#10) + (2#10))) "rsi"
  else mkSignal "none" (3#10) "rsi".

(** [_generate_macd_signal]. *)
Definition macd_signal_v2 (ready : bool) (macd_line signal_line : Q) : Signal :=
  if negb ready then mkSignal "none" 0 "macd" else
  if qlt signal_line macd_line then
    mkSignal "buy" (py_min (7#10) ((macd_line - signal_line)
      / py_max (Qabs signal_line) (1#1000) * (4#10) + (3#10))) "macd"
  else if qlt macd_line signal_line then
    mkSignal "sell" (py_min (7#10) ((signal_line - macd_line)
      / py_max (Qabs macd_line) (1#1000) * (4#10) + (3#10))) "macd"
  else mkSignal "none" (25#100) "macd".

(** [_generate_bollinger_signal]. *)
Definition bollinger_signal_v2 (ip : IndParams) (ready : bool)
    (current_price upper_bb lower_bb : Q) : Signal :=
  if negb ready then mkSignal "none" 0 "bollinger" else
  if qlt (upper_bb * bollinger_upper_threshold ip) current_price then
    mkSignal "sell" (py_min (6#10) ((current_price - upper_bb) / upper_bb * 8 + (3#10))) "bollinger"
  else if qlt current_price (lower_bb * bollinger_lower_threshold ip) then
    mkSignal "buy" (py_min (6#10) ((lower_bb - current_price) / lower_bb * 8 + (3#10))) "bollinger"
  else mkSignal "none" (2#10) "bollinger".

(** [_generate_momentum_signal]; [close0] is [close[0]], [close2] is
    [close[-2]]. *)
Definition momentum_signal_v2 (ip : IndParams) (ready : bool) (close0 close2 : Q) : Signal :=
  if negb ready then mkSignal "none" 0 "momentum" else
  let price_change_pct := (close0 - close2) / close2 * 100 in
  if qlt (momentum_threshold ip) price_change_pct then
    mkSignal "buy" (py_min (6#10) (price_change_pct * (15#100) + (2#10))) "momentum"
  else if qlt price_change_pct (- momentum_threshold ip) then
    mkSignal "sell" (py_min (6#10) (Qabs price_change_pct * (15#100) + (2#10))) "momentum"
  else mkSignal "none" (15#100) "momentum".

(** [_generate_kdj_signal]; [k], [d] are [percK[0]], [percD[0]]. *)
Definition kdj_signal_v2 (ip : IndParams) (ready : bool) (k d : Q) : Signal :=
  if negb ready then mkSignal "none" 0 "kdj" else
  if qlt k (kdj_oversold ip) && qlt d (kdj_oversold ip) && qlt d k then
    mkSignal "buy" (py_min (7#10)
      ((kdj_oversold ip - py_min k d) / kdj_oversold ip * (7#10) + (2#10))) "kdj"
  else if qlt (kdj_overbought ip) k && qlt (kdj_overbought ip) d && qlt k d then
    mkSignal "sell" (py_min (7#10)
      ((py_min k d - kdj_overbought ip) / (100 - kdj_overbought ip) * (7#10) + (2#10))) "kdj"
  else mkSignal "none" (2#10) "kdj".

(** [_generate_volume_signal]; [cross] is [volume_break[0]] (the
    [CrossOver] of the volume over its average: 1, -1 or 0). *)
Definition volume_signal_v2 (ready : bool) (cross volume volume_sma : Q) : Signal :=
  if negb ready then mkSignal "none" 0 "volume" else
  if Qeq_bool cross 1 then
    mkSignal "buy" (py_min (6#10) ((volume / volume_sma - 1) * (2#10) + (3#10))) "volume"
  else if Qeq_bool cross (-1) then
    mkSignal "sell" (py_min (6#10) ((volume_sma / volume - 1) * (2#10) + (3#10))) "volume"
  else mkSignal "none" (15#100) "volume".

(** The weight table of [AdvisoryTradingStrategyV2._generate_advisory_signal]. *)
Definition weights_v2 : gmap string Q :=
  <["trend" := 25#100]> (<["rsi" := 2#10]> (<["macd" := 15#100]>
  (<["bollinger" := 1#10]> (<["momentum" := 1#10]> (<["kdj" := 1#10]>
  (<["volume" := 1#10]> ∅)))))).

(** [AdvisoryTradingStrategyV2._generate_advisory_signal]: [data_len] is
    [len(self.datas[0])], [signals] the seven indicator signals in the
    order trend, rsi, macd, bollinger, momentum, kdj, volume. *)
Definition generate_advisory_signal_v2 (p : Params) (data_len : nat)
    (signals : list Signal) : Advice :=
  if (data_len <? 15)%nat then mkAdvice "none" 0
  else combine_signals_v2 (signal_confidence_threshold p) signals weights_v2.

(** ** [next] of the v3 and optimized strategies *)

(** Lines 463-476 of [AdvisoryTradingStrategyV3.next] (the same code as
    lines 299-315 of [AdvisoryTradingStrategyOptimized.next]): no short
    selling. *)
Definition trade_decision_v3 (p : Params) (s : Strat) (current_price : Q)
    (sg : string) : Strat * option Order :=
  let max_shares := py_int (cash s * max_position_ratio p / current_price) in
  if String.eqb sg "buy" && (pos_size s =? 0)%Z then
    let size := Z.min (trade_size p) max_shares in
    if (0 <? size)%Z then (set_order s true, Some (Buy size)) else (s, None)
  else if String.eqb sg "sell" && negb (pos_size s =? 0)%Z then
    (set_order s true, Some (Sell (pos_size s)))
  else (s, None).

(** [AdvisoryTradingStrategyV3.next] (its [_can_trade] and
    [_should_sell_due_to_risk] are the v2 code; [allow_short_selling] is
    not a v3 parameter and is not read). *)
Definition next_v3 (p : Params) (s : Strat) (current_price : Q) (adv : Advice)
    : Strat * option Order :=
  if negb (can_trade p s current_price) then (s, None)
  else
    let '(risk, s1) :=
      if (pos_size s =? 0)%Z then (None, s)
      else should_sell_due_to_risk p s current_price in
    match risk with
    | Some _ => (set_order s1 true, Some (Sell (pos_size s1)))
    | None =>
        let s2 := set_current s1 (advice_signal adv) (advice_confidence adv) in
        trade_decision_v3 p s2 current_price (advice_signal adv)
    end.

(** The v2 parameters with [allow_short_selling] switched off. *)
Definition no_short (p : Params) : Params :=
  mkParams (trade_size p) (signal_confidence_threshold p) (max_position_ratio p)
           (min_trade_value p) (stop_loss_pct p) (take_profit_pct p)
           (trailing_stop_pct p) false.

(** The notification of an order filled completely at [price]
    ([order.executed.size] is the ordered size; [ev_size] is its absolute
    value, as backtrader's [sell] takes [abs(size)]). *)
Definition fill_event (o : Order) (price : Q) : OrderEvent :=
  match o with
  | Buy z => mkEvent Completed true price z
  | Sell z => mkEvent Completed false price (Z.abs z)
  end.

(** [AdvisoryTradingStrategyOptimized._can_trade]: the minimum share count
    is the unrounded [min_trade_value / current_price], at least 1. *)
Definition can_trade_opt (p : Params) (s : Strat) (current_price : Q) : bool :=
  if order_pending s then false
  else
    let min_shares := min_trade_value p / current_price in
    let min_shares := if qlt min_shares 1 then 1 else min_shares in
    let max_position_value := cash s * max_position_ratio p in
    let max_shares := py_int (max_position_value / current_price) in
    Qle_bool min_shares (inject_Z max_shares).

(** [AdvisoryTradingStrategyOptimized.next]: no risk check. *)
Definition next_opt (p : Params) (s : Strat) (current_price : Q) (adv : Advice)
    : Strat * option Order :=
  if negb (can_trade_opt p s current_price) then (s, None)
  else
    let s2 := set_current s (advice_signal adv) (advice_confidence adv) in
    trade_decision_v3 p s2 current_price (advice_signal adv).

(** ** Trade statistics of [notify_order] (v2 and v3) *)

Record Stats := mkStats {
  trade_count : nat; buy_count : nat; sell_count : nat; successful_trades : nat
}.

Definition count_completed (st : Stats) (isbuy : bool) (succ : nat) : Stats :=
  mkStats (S (trade_count st))
          (if isbuy then S (buy_count st) else buy_count st)
          (if isbuy then sell_count st else S (sell_count st)) succ.

(** The counters of [AdvisoryTradingStrategyV2.notify_order]; [s] is the
    strategy at notification time (the broker has already applied the
    fill, see [on_order]). The profit of a sell is only looked at
    [if self.position]. When [entry_price] is 0.0 there (a completed sell
    that opened a short from flat) Python raises [ZeroDivisionError],
    which this function does not model. *)
Definition notify_stats_v2 (st : Stats) (s : Strat) (e : OrderEvent) : Stats :=
  match ev_status e with
  | Completed =>
      let succ :=
        if ev_isbuy e then successful_trades st
        else if negb (pos_size s =? 0)%Z then
          let profit_pct := (ev_price e - entry_price s) / entry_price s * 100 in
          if qlt 0 profit_pct then S (successful_trades st) else successful_trades st
        else successful_trades st in
      count_completed st (ev_isbuy e) succ
  | _ => st
  end.

(** The counters of [AdvisoryTradingStrategyV3.notify_order]: the profit
    of every completed sell is computed; [None] is the [ZeroDivisionError]
    raised when [entry_price] is 0. *)
Definition notify_stats_v3 (st : Stats) (s : Strat) (e : OrderEvent) : option Stats :=
  match ev_status e with
  | Completed =>
      if ev_isbuy e then Some (count_completed st true (successful_trades st))
      else if Qeq_bool (entry_price s) 0 then None
      else
        let profit_pct := (ev_price e - entry_price s) / entry_price s * 100 in
        Some (count_completed st false
                (if qlt 0 profit_pct then S (successful_trades st) else successful_trades st))
  | _ => Some st
  end.

(** ** The advisor registry of [BacktraderLLMAdvisory] *)

Record Registry (A : Type) := mkRegistry {
  all_advisors : list A;              (** [self.all_advisors] *)
  advisor_names : gmap string A       (** [self.advisor_names] *)
}.
Arguments mkRegistry {A}.
Arguments all_advisors {A}.
Arguments advisor_names {A}.

(** [BacktraderLLMAdvisory.__init__]. *)
Definition empty_registry {A : Type} : Registry A := mkRegistry [] ∅.

(** [BacktraderLLMAdvisory.add_advisor]. *)
Definition add_advisor {A : Type} (r : Registry A) (name : string) (advisor : A) : Registry A :=
  mkRegistry (all_advisors r ++ [advisor]) (<[name := advisor]> (advisor_names r)).

(** [BacktraderLLMAdvisory.get_advisor_by_name]. *)
Definition get_advisor_by_name {A : Type} (r : Registry A) (name : string) : option A :=
  advisor_names r !! name.

(** A sequence of [add_advisor] calls. *)
Definition add_advisors {A : Type} (r : Registry A) (l : list (string * A)) : Registry A :=
  fold_left (fun r '(name, advisor) => add_advisor r name advisor) l r.

(** ** [get_consensus_signal] of [examples/openai_advisory_example.py] *)

(** [advice.get("signal", "none")], compared with string literals. *)
Definition advice_signal_of (d : PyDict) : string :=
  match py_lookup d "signal" with Some (VStr s) => s | _ => "none" end.

(** The three counters of the loop over [advice_results.items()]. *)
Fixpoint consensus_counts (advices : list PyDict) : nat * nat * nat :=
  match advices with
  | [] => (0, 0, 0)%nat
  | d :: r =>
      let '(bu, be, ne) := consensus_counts r in
      if String.eqb (advice_signal_of d) "bullish" then (S bu, be, ne)
      else if String.eqb (advice_signal_of d) "bearish" then (bu, S be, ne)
      else (bu, be, S ne)
  end.

(** [LLMAdvisoryStrategy.get_consensus_signal]; [advices] are the
    values of [advice_results]. *)
Definition get_consensus_signal (advices : list PyDict) : string :=
  let '(bullish_count, bearish_count, neutral_count) := consensus_counts advices in
  if (bearish_count <? bullish_count)%nat && (neutral_count <? bullish_count)%nat then "bullish"
  else if (bullish_count <? bearish_count)%nat && (neutral_count <? bearish_count)%nat then "bearish"
  else "neutral".

(** The advice of several advisors, as the example's [next] collects it. *)
Definition collect_advice (advisors : gmap string UpdateOutcome) (names : list string)
    : list PyDict :=
  map (get_advice advisors) names.

(** Number of signals whose [signal] field is in [names]. *)
Definition count_signals (names : list string) (l : list Signal) : nat :=
  length (List.filter (fun s => existsb (String.eqb (signal s)) names) l).

(** * Properties *)

Lemma qlt_irrefl_eq (a b : Q) : a == b -> qlt a b = false.
Proof.
  intro H. unfold qlt. apply negb_false_iff, Qle_bool_iff.
  rewrite H. apply Qle_refl.
Qed.

Lemma qlt_true_iff (a b : Q) : qlt a b = true <-> a < b.
Proof.
  unfold qlt. rewrite negb_true_iff. split; intro H.
  - apply Qnot_le_lt. intro H'. apply Qle_bool_iff in H'. congruence.
  - destruct (Qle_bool b a) eqn:E; [|reflexivity].
    apply Qle_bool_iff in E. exfalso. apply (Qlt_not_le _ _ H E).
Qed.

Lemma qlt_false_iff (a b : Q) : qlt a b = false <-> b <= a.
Proof.
  unfold qlt. rewrite negb_false_iff. apply Qle_bool_iff.
Qed.

(** [C3] With weights [{trend:0.4, rsi:0.3, macd:0.3}], signals
    [{trend: buy 0.8, rsi: buy 0.6, macd: sell 0.5}] and threshold 0.3
    (min_votes 1 and no margin, as in v2), [_combine_signals] accumulates
    buy score 0.5 and sell score 0.15 and returns "buy" with confidence
    0.5; from a flat position, when the capital gate passes and the order
    size is positive, [next] submits a buy order. *)
Lemma C3_weighted_buy_scenario (p : Params) (s : Strat) (price : Q)
    (Hflat : pos_size s = 0%Z) (Hgate : can_trade p s price = true)
    (Hsize : (0 < Z.min (trade_size p) (py_int (cash s * max_position_ratio p / price)))%Z) :
  let a := fold_left (combine_step_v2 scen_weights) scen_signals acc0 in
  let adv := combine_signals_v2 (3#10) scen_signals scen_weights in
  total_buy a == 1#2 /\ total_sell a == 15#100 /\
  advice_signal adv = "buy" /\ advice_confidence adv == 1#2 /\
  snd (next p s price adv) =
    Some (Buy (Z.min (trade_size p) (py_int (cash s * max_position_ratio p / price)))).
Proof.
  cbv zeta.
  assert (Hadv : advice_signal (combine_signals_v2 (3#10) scen_signals scen_weights) = "buy")
    by (vm_compute; reflexivity).
  split; [vm_compute; reflexivity|].
  split; [vm_compute; reflexivity|].
  split; [exact Hadv|].
  split; [vm_compute; reflexivity|].
  unfold next. rewrite Hgate, Hflat. simpl negb. cbn iota.
  unfold trade_decision. rewrite Hadv. simpl. rewrite Hflat.
  destruct (0 <? _)%Z eqn:E; [reflexivity|].
  apply Z.ltb_ge in E. lia.
Qed.

Lemma C3_weighted_buy_scenario_witness :
  pos_size (init_strat 50000) = 0%Z /\ can_trade params_v2 (init_strat 50000) 150 = true /\
  snd (next params_v2 (init_strat 50000) 150
         (combine_signals_v2 (3#10) scen_signals scen_weights)) = Some (Buy 100).
Proof.
  split; [reflexivity|]. split; [vm_compute; reflexivity|].
  destruct (C3_weighted_buy_scenario params_v2 (init_strat 50000) 150)
    as [_ [_ [_ [_ H]]]]; [reflexivity | vm_compute; reflexivity | vm_compute; reflexivity |].
  rewrite H. vm_compute. reflexivity.
Defined.

(** [C4] Whenever the accumulated buy and sell scores are equal,
    [_combine_signals] (v2; the optimized variant has the same code)
    returns "none", since both branches compare with a strict [>]; with no
    signal at all it returns "none" with confidence 0. *)
Lemma C4_tie_gives_none (threshold : Q) (signals : list Signal) (weights : gmap string Q)
    (Htie : total_buy (fold_left (combine_step_v2 weights) signals acc0)
            == total_sell (fold_left (combine_step_v2 weights) signals acc0)) :
  advice_signal (combine_signals_v2 threshold signals weights) = "none" /\
  combine_signals_v2 threshold [] weights = mkAdvice "none" 0.
Proof.
  split.
  - unfold combine_signals_v2.
    rewrite (qlt_irrefl_eq _ _ (Qeq_sym _ _ Htie)), (qlt_irrefl_eq _ _ Htie).
    rewrite !andb_false_r. reflexivity.
  - reflexivity.
Qed.

Lemma C4_tie_gives_none_witness :
  advice_signal (combine_signals_v2 (1#10)
     [mkSignal "buy" (5#10) "trend"; mkSignal "sell" (5#10) "trend"] scen_weights) = "none".
Proof.
  apply (C4_tie_gives_none (1#10)
           [mkSignal "buy" (5#10) "trend"; mkSignal "sell" (5#10) "trend"] scen_weights).
  vm_compute. reflexivity.
Defined.

(** [C5] For a short position, a "sell" consensus does not hold as the
    transition table asks (Short + Sell: Hold): the branch commented as
    closing the position (有持仓时平仓卖出) calls
    [self.sell(size=self.position.size)] with the negative size of the
    short, and backtrader sells [abs(size)], so the short doubles. In the
    scenario (short selling enabled, 100 shares short at 100, price 100,
    no risk exit) [next] emits a sell of -100, whose fill takes the
    position to -200. *)
Lemma C5_short_sell_adds_to_short :
  (forall (p : Params) (s : Strat) (price : Q), (pos_size s < 0)%Z ->
     trade_decision p s price "sell" = (set_order s true, Some (Sell (pos_size s)))) /\
  next params_v2_short short_rich 100 (mkAdvice "sell" (1#2)) =
    (set_order (set_current short_rich "sell" (1#2)) true, Some (Sell (-100))) /\
  pos_size (on_order (set_order (set_current short_rich "sell" (1#2)) true)
                     (fill_event (Sell (-100)) 100)) = (-200)%Z.
Proof.
  split; [|split; vm_compute; reflexivity].
  intros p s price Hneg. unfold trade_decision.
  assert (Hz : (pos_size s =? 0)%Z = false) by (apply Z.eqb_neq; lia).
  rewrite Hz. reflexivity.
Qed.




(** [C2] (counterexample) At 57, above the take-profit level 56 of the long
    position bought at 50 with 1200 left in cash, [next] emits no order:
    the [_can_trade] gate returns before the risk checks are consulted. *)
Lemma C2_gate_blocks_take_profit :
  Qle_bool (entry_price long_low_cash * (1 + take_profit_pct params_v2)) 57 = true /\
  next params_v2 long_low_cash 57 (mkAdvice "none" 0) = (long_low_cash, None).
Proof. vm_compute. split; reflexivity. Qed.

(** [C2] (amended) When evaluated on an open position, the risk checks run
    in the order stop-loss, take-profit, trailing-stop and the first that
    fires wins: a firing stop-loss returns it whatever the other levels, a
    firing take-profit (stop-loss not firing) returns it with the state,
    hence [highest_price], untouched. In the scenario (long, entry 100,
    take_profit_pct 0.12, a non-negative stop_loss_pct, price 113) the check
    returns take-profit and [next] sells the whole position whenever the
    [_can_trade] gate passes. *)
Lemma C2_risk_check_order (p : Params) (s : Strat) (price : Q) (adv : Advice)
    (Hopen : pos_size s <> 0%Z) :
  (Qle_bool price (entry_price s * (1 - stop_loss_pct p)) = true ->
     should_sell_due_to_risk p s price = (Some StopLoss, s)) /\
  (Qle_bool price (entry_price s * (1 - stop_loss_pct p)) = false ->
   Qle_bool (entry_price s * (1 + take_profit_pct p)) price = true ->
     should_sell_due_to_risk p s price = (Some TakeProfit, s)) /\
  ((0 < pos_size s)%Z -> entry_price s == 100 -> take_profit_pct p == 12#100 ->
   0 <= stop_loss_pct p -> price == 113 ->
     should_sell_due_to_risk p s price = (Some TakeProfit, s) /\
     next p s price adv =
       if can_trade p s price then (set_order s true, Some (Sell (pos_size s)))
       else (s, None)).
Proof.
  assert (Hnz : (pos_size s =? 0)%Z = false) by (apply Z.eqb_neq; exact Hopen).
  assert (Hsl : Qle_bool price (entry_price s * (1 - stop_loss_pct p)) = false ->
                Qle_bool (entry_price s * (1 + take_profit_pct p)) price = true ->
                should_sell_due_to_risk p s price = (Some TakeProfit, s)).
  { intros H1 H2. unfold should_sell_due_to_risk. rewrite Hnz, H1, H2. reflexivity. }
  split; [|split].
  - intro H1. unfold should_sell_due_to_risk. rewrite Hnz, H1. reflexivity.
  - exact Hsl.
  - intros Hlong He Htp Hsl0 Hp.
    assert (Hrisk : should_sell_due_to_risk p s price = (Some TakeProfit, s)).
    { apply Hsl.
      - apply not_true_iff_false. intro H. apply Qle_bool_iff in H.
        rewrite He, Hp in H.
        lra.
      - apply Qle_bool_iff. rewrite He, Htp, Hp. discriminate. }
    split; [exact Hrisk|].
    unfold next. destruct (can_trade p s price); [|reflexivity].
    simpl negb. cbv iota. rewrite Hnz, Hrisk. reflexivity.
Qed.

Lemma C2_risk_check_order_witness :
  should_sell_due_to_risk params_v2 long_rich 113 = (Some TakeProfit, long_rich) /\
  next params_v2 long_rich 113 (mkAdvice "buy" 1) = (set_order long_rich true, Some (Sell 100)).
Proof.
  destruct (C2_risk_check_order params_v2 long_rich 113 (mkAdvice "buy" 1))
    as [_ [_ H]]; [discriminate|].
  destruct H as [H1 H2]; [reflexivity | reflexivity | reflexivity | discriminate | reflexivity |].
  split; [exact H1|]. rewrite H2. vm_compute. reflexivity.
Defined.

(** One evaluation of the risk check that does not fire never lowers
    [highest_price]; on an open position it raises it to a price above it. *)
Lemma risk_none_highest (p : Params) (s s1 : Strat) (x : Q) :
  should_sell_due_to_risk p s x = (None, s1) ->
  highest_price s <= highest_price s1 /\
  ((pos_size s =? 0)%Z = false -> highest_price s < x -> highest_price s1 = x) /\
  pos_size s1 = pos_size s.
Proof.
  unfold should_sell_due_to_risk.
  destruct (pos_size s =? 0)%Z eqn:Hz.
  - intro H. inversion H. subst. split; [apply Qle_refl|].
    split; [discriminate | reflexivity].
  - destruct (Qle_bool x _); [discriminate|].
    destruct (Qle_bool _ x); [discriminate|].
    destruct (qlt (highest_price s) x) eqn:Hq.
    + apply qlt_true_iff in Hq.
      destruct (Qle_bool x _); intro H; inversion H; subst; simpl.
      split; [apply Qlt_le_weak, Hq|]. split; reflexivity.
    + apply qlt_false_iff in Hq.
      destruct (Qle_bool x _); intro H; inversion H; subst.
      split; [apply Qle_refl|]. split; [|reflexivity].
      intros _ Hlt. exfalso. apply (Qlt_not_le _ _ Hlt Hq).
Qed.

(** [C6] (counterexample) Along the strictly increasing prices 98, 99 of a
    long position bought at 100 (highest price 100), no check fires and
    [highest_price] stays 100, so the trailing-stop trigger stays 97.5. *)
Lemma C6_rising_below_high_keeps_trigger :
  risk_trace params_v2 long_rich [98; 99] = [long_rich; long_rich] /\
  trailing_trigger params_v2 long_rich == 975#10.
Proof. split; vm_compute; reflexivity. Qed.

(** [C6] (amended) Across successive evaluations of the risk check on a
    position that stays open, [highest_price] never decreases, whatever
    the prices. Along a strictly increasing price series whose first price
    is above the current [highest_price], with [trailing_stop_pct < 1],
    the trailing-stop trigger price strictly increases at every evaluation
    that leaves the position open. At one evaluation on an open position
    that does not fire, the trigger strictly increases exactly when the
    price exceeds the previous [highest_price] (with
    [trailing_stop_pct < 1]); a price at or below [highest_price] leaves
    the state, hence the trigger, unchanged, and so does a whole series of
    such prices. *)
Lemma C6_trailing_monotone (p : Params) (s : Strat) (prices : list Q) :
  chain Qle (map highest_price (s :: risk_trace p s prices)) /\
  (pos_size s <> 0%Z -> trailing_stop_pct p < 1 ->
   (match prices with [] => True | x :: _ => highest_price s < x end) ->
   chain Qlt prices ->
   chain Qlt (map (trailing_trigger p) (s :: risk_trace p s prices))) /\
  (forall x s1, pos_size s <> 0%Z -> trailing_stop_pct p < 1 ->
   should_sell_due_to_risk p s x = (None, s1) ->
   (trailing_trigger p s < trailing_trigger p s1 <-> highest_price s < x) /\
   (x <= highest_price s -> s1 = s)) /\
  (Forall (fun x => x <= highest_price s) prices ->
   Forall (fun s1 => s1 = s) (risk_trace p s prices)).
Proof.
  split; [|split; [|split]].
  - revert s. induction prices as [|x xs IH]; intro s; [exact I|].
    simpl. destruct (should_sell_due_to_risk p s x) as [[r|] s1] eqn:E; [exact I|].
    pose proof (IH s1) as IH1. simpl in IH1.
    split; [apply (proj1 (risk_none_highest _ _ _ _ E)) | exact IH1].
  - intros Hopen Ht. revert s Hopen.
    induction prices as [|x xs IH]; intros s Hopen Hhead Hchain; [exact I|].
    simpl. destruct (should_sell_due_to_risk p s x) as [[r|] s1] eqn:E; [exact I|].
    destruct (risk_none_highest _ _ _ _ E) as [_ [Hup Hpos]].
    assert (Hs1 : highest_price s1 = x)
      by (apply Hup; [apply Z.eqb_neq, Hopen | exact Hhead]).
    pose proof (IH s1) as IH1. simpl in IH1.
    split.
    + unfold trailing_trigger. rewrite Hs1.
      apply Qmult_lt_r; [lra | exact Hhead].
    + apply IH1; [rewrite Hpos; exact Hopen| |].
      * destruct xs as [|y ys]; [exact I|]. rewrite Hs1. exact (proj1 Hchain).
      * destruct xs as [|y ys]; [exact I|]. exact (proj2 Hchain).
  - intros x s1 Hopen Ht R.
    assert (Hkeep : x <= highest_price s -> s1 = s).
    { intros Hle. unfold should_sell_due_to_risk in R.
      destruct (pos_size s =? 0)%Z; [injection R as <-; reflexivity|].
      destruct (Qle_bool x _); [discriminate|].
      destruct (Qle_bool _ x); [discriminate|].
      assert (Hq : qlt (highest_price s) x = false) by (apply qlt_false_iff; exact Hle).
      rewrite Hq in R. destruct (Qle_bool x _); [discriminate|].
      injection R as <-. reflexivity. }
    split; [|exact Hkeep].
    destruct (risk_none_highest _ _ _ _ R) as [_ [Hup _]].
    unfold trailing_trigger. split.
    + intros Hlt. destruct (Qlt_le_dec (highest_price s) x) as [Hx|Hx]; [exact Hx|].
      rewrite (Hkeep Hx) in Hlt. exfalso. apply (Qlt_irrefl _ Hlt).
    + intros Hx. rewrite (Hup (proj2 (Z.eqb_neq _ _) Hopen) Hx).
      apply Qmult_lt_r; [lra | exact Hx].
  - revert s. induction prices as [|x xs IH]; intros s F; [constructor|].
    inversion F as [|? ? Hx Fs]; subst. simpl.
    assert (Hkeep : should_sell_due_to_risk p s x = (None, s) \/
                    exists r, should_sell_due_to_risk p s x = (Some r, s)).
    { unfold should_sell_due_to_risk.
      destruct (pos_size s =? 0)%Z; [left; reflexivity|].
      destruct (Qle_bool x _); [right; eexists; reflexivity|].
      destruct (Qle_bool _ x); [right; eexists; reflexivity|].
      assert (Hq : qlt (highest_price s) x = false) by (apply qlt_false_iff; exact Hx).
      rewrite Hq. destruct (Qle_bool x _); [right; eexists; reflexivity | left; reflexivity]. }
    destruct Hkeep as [E | [r E]]; rewrite E; [|constructor].
    constructor; [reflexivity | apply IH, Fs].
Qed.

Lemma C6_trailing_monotone_witness :
  chain Qlt (map (trailing_trigger params_v2) (long_rich :: risk_trace params_v2 long_rich [101; 102; 103])).
Proof.
  apply (proj1 (proj2 (C6_trailing_monotone params_v2 long_rich [101; 102; 103])));
    [discriminate | reflexivity | reflexivity | vm_compute; repeat split].
Defined.

(** [C7] (counterexample) Closing the long position bought at 100 (a
    completed sell of its 100 shares at 105) leaves the position flat with
    [entry_price] and [highest_price] still 100: nothing clears them. *)
Lemma C7_close_keeps_entry :
  let s' := on_order long_rich (mkEvent Completed false 105 100) in
  pos_size s' = 0%Z /\ entry_price s' = 100 /\ highest_price s' = 100.
Proof. repeat split. Qed.

(** [C7] (amended) [entry_price] and [highest_price] are both set to the
    executed price whenever a buy order completes; no other order event
    changes them, so they are not cleared when a position closes and keep
    their last values while flat. While flat, the order [next] emits does
    not depend on them. *)
Lemma C7_entry_extreme_lifecycle (s : Strat) (e : OrderEvent)
    (p : Params) (price : Q) (adv : Advice) (x y : Q) :
  (ev_status e = Completed -> ev_isbuy e = true ->
     entry_price (notify_order s e) = ev_price e /\
     highest_price (notify_order s e) = ev_price e) /\
  (ev_status e <> Completed \/ ev_isbuy e = false ->
     entry_price (notify_order s e) = entry_price s /\
     highest_price (notify_order s e) = highest_price s) /\
  (pos_size s = 0%Z ->
     snd (next p s price adv) =
     snd (next p (mkStrat (pos_size s) x y (order_pending s) (cash s)
                          (current_signal s) (current_confidence s)) price adv)).
Proof.
  split; [|split].
  - unfold notify_order. intros -> ->. split; reflexivity.
  - unfold notify_order. intros [H | H].
    + destruct (ev_status e); try (split; reflexivity). congruence.
    + rewrite H. destruct (ev_status e); split; reflexivity.
  - intro Hflat. unfold next, can_trade. simpl. rewrite Hflat. simpl.
    destruct (order_pending s); [reflexivity|].
    destruct (_ <=? _)%Z; [|reflexivity]. simpl.
    unfold trade_decision. simpl. rewrite Hflat. simpl.
    destruct (String.eqb (advice_signal adv) "buy"); simpl;
      [destruct (0 <? _)%Z; reflexivity|].
    destruct (String.eqb (advice_signal adv) "sell"); simpl; [|reflexivity].
    destruct (allow_short_selling p); [|reflexivity].
    destruct (0 <? _)%Z; reflexivity.
Qed.

Lemma C7_entry_extreme_lifecycle_witness :
  entry_price (notify_order (init_strat 50000) (mkEvent Completed true 150 100)) = 150.
Proof.
  apply (C7_entry_extreme_lifecycle (init_strat 50000) (mkEvent Completed true 150 100)
           params_v2 150 (mkAdvice "none" 0) 0 0); reflexivity.
Defined.

Lemma risk_frame (p : Params) (s s1 : Strat) (x : Q) (r : option RiskReason) :
  should_sell_due_to_risk p s x = (r, s1) ->
  pos_size s1 = pos_size s /\ order_pending s1 = order_pending s /\ cash s1 = cash s.
Proof.
  unfold should_sell_due_to_risk.
  destruct (pos_size s =? 0)%Z; [intro H; inversion H; subst; auto|].
  destruct (Qle_bool x _); [intro H; inversion H; subst; auto|].
  destruct (Qle_bool _ x); [intro H; inversion H; subst; auto|].
  destruct (qlt (highest_price s) x); destruct (Qle_bool x _);
    intro H; inversion H; subst; auto.
Qed.

Lemma risk_none_repeat (p : Params) (s s1 : Strat) (x : Q) (sg : string) (c : Q) :
  should_sell_due_to_risk p s x = (None, s1) ->
  should_sell_due_to_risk p (set_current s1 sg c) x = (None, set_current s1 sg c).
Proof.
  intro R. unfold should_sell_due_to_risk in R.
  destruct (pos_size s =? 0)%Z eqn:Hz.
  { injection R as <-. unfold should_sell_due_to_risk.
    cbn [set_current pos_size]. rewrite Hz. reflexivity. }
  destruct (Qle_bool x (entry_price s * _)) eqn:H1; [discriminate|].
  destruct (Qle_bool (entry_price s * _) x) eqn:H2; [discriminate|].
  unfold should_sell_due_to_risk.
  destruct (qlt (highest_price s) x) eqn:H3.
  - cbn [set_highest highest_price] in R.
    destruct (Qle_bool x (x * _)) eqn:H4; [discriminate|].
    injection R as <-.
    cbn [set_current set_highest pos_size entry_price highest_price].
    rewrite Hz, H1, H2, (qlt_irrefl_eq x x (Qeq_refl x)).
    cbn [set_current set_highest pos_size entry_price highest_price].
    rewrite H4. reflexivity.
  - destruct (Qle_bool x (highest_price s * _)) eqn:H4; [discriminate|].
    injection R as <-.
    cbn [set_current pos_size entry_price highest_price].
    rewrite Hz, H1, H2, H3.
    cbn [set_current pos_size entry_price highest_price].
    rewrite H4. reflexivity.
Qed.

Lemma trade_decision_hold (p : Params) (s s' : Strat) (x : Q) (sg : string) :
  trade_decision p s x sg = (s', None) -> s' = s.
Proof.
  unfold trade_decision.
  destruct (String.eqb sg "buy" && _); [destruct (0 <? _)%Z; intro H; inversion H; auto|].
  destruct (String.eqb sg "sell"); [|intro H; inversion H; auto].
  destruct (negb _); [intro H; inversion H|].
  destruct (allow_short_selling p); [destruct (0 <? _)%Z|]; intro H; inversion H; auto.
Qed.

Lemma trade_decision_order (p : Params) (s s' : Strat) (x : Q) (sg : string) (o : Order) :
  trade_decision p s x sg = (s', Some o) -> order_pending s' = true.
Proof.
  unfold trade_decision.
  destruct (String.eqb sg "buy" && _); [destruct (0 <? _)%Z; intro H; inversion H; auto|].
  destruct (String.eqb sg "sell"); [|intro H; inversion H; auto].
  destruct (negb _); [intro H; inversion H; auto|].
  destruct (allow_short_selling p); [destruct (0 <? _)%Z|]; intro H; inversion H; auto.
Qed.

Lemma next_order_pending (p : Params) (s s' : Strat) (x : Q) (adv : Advice) (o : Order) :
  next p s x adv = (s', Some o) -> order_pending s' = true.
Proof.
  unfold next. destruct (negb (can_trade p s x)); [intro H; inversion H|].
  destruct (if (pos_size s =? 0)%Z then _ else _) as [[r|] s1].
  - intro H; inversion H; reflexivity.
  - apply trade_decision_order.
Qed.

Lemma next_hold_repeat (p : Params) (s s' : Strat) (x : Q) (adv : Advice) :
  next p s x adv = (s', None) -> next p s' x adv = (s', None).
Proof.
  unfold next at 1. destruct (can_trade p s x) eqn:Hg; simpl negb; cbv iota.
  2: { intro H; inversion H; subst. unfold next. rewrite Hg. reflexivity. }
  destruct (pos_size s =? 0)%Z eqn:Hz.
  - intro H. pose proof (trade_decision_hold _ _ _ _ _ H) as ->.
    unfold next.
    assert (Hg' : can_trade p (set_current s (advice_signal adv) (advice_confidence adv)) x = true)
      by exact Hg.
    rewrite Hg'. simpl negb. cbv iota. cbn [set_current pos_size]. rewrite Hz.
    exact H.
  - destruct (should_sell_due_to_risk p s x) as [[r|] s1] eqn:R; [discriminate|].
    intro H. pose proof (trade_decision_hold _ _ _ _ _ H) as ->.
    destruct (risk_frame _ _ _ _ _ R) as [Hp [Ho Hc]].
    unfold next.
    assert (Hg' : can_trade p (set_current s1 (advice_signal adv) (advice_confidence adv)) x = true)
      by (unfold can_trade in *; cbn [set_current order_pending cash]; rewrite Ho, Hc; exact Hg).
    rewrite Hg'. simpl negb. cbv iota.
    cbn [set_current pos_size]. rewrite Hp, Hz.
    rewrite (risk_none_repeat _ _ _ _ _ _ R). exact H.
Qed.

(** [C9] (counterexample) From a flat state with ample cash and a "buy"
    advisory signal, [next] submits a buy of 100 shares; called again with
    the same signal and price, before any fill changed the position, it
    emits nothing, because the first call recorded the pending order. *)
Lemma C9_repeat_after_order_differs :
  let adv := mkAdvice "buy" (1#2) in
  snd (next params_v2 (init_strat 50000) 150 adv) = Some (Buy 100) /\
  snd (next params_v2 (fst (next params_v2 (init_strat 50000) 150 adv)) 150 adv) = None.
Proof. vm_compute. split; reflexivity. Qed.

(** [C9] (amended) [next] is a function of the strategy state and its
    inputs; re-invoking it on the state the previous call left, with the
    same price and advisory signal, always emits no order and leaves that
    state unchanged: if the first call emitted no order the repeat agrees
    with it, and if it emitted one, the recorded pending order blocks the
    repeat. *)
Lemma C9_repeat_step (p : Params) (s : Strat) (price : Q) (adv : Advice) :
  next p (fst (next p s price adv)) price adv = (fst (next p s price adv), None).
Proof.
  destruct (next p s price adv) as [s' [o|]] eqn:E; simpl.
  - pose proof (next_order_pending _ _ _ _ _ _ E) as Hpend.
    unfold next, can_trade. rewrite Hpend. reflexivity.
  - exact (next_hold_repeat _ _ _ _ _ E).
Qed.

(** [C8] When the advisor's [update_state] raises, [get_advice] catches the
    exception and returns a dict with signal "none" and the error text as
    reasoning, but without any "confidence" entry, although its docstring
    promises a dict containing signal, confidence and reasoning (the
    successful parse path always includes one, 0.0 when no keyword
    matches). *)
Lemma C8_error_advice_has_no_confidence (advisors : gmap string UpdateOutcome)
    (name msg : string) (Hraise : advisors !! name = Some (Raises msg)) :
  get_advice advisors name =
    [("signal", VStr "none"); ("reasoning", VStr ("Error getting advice: " ++ msg))] /\
  py_lookup (get_advice advisors name) "confidence" = None.
Proof.
  unfold get_advice. rewrite Hraise. split; reflexivity.
Qed.

Lemma C8_error_advice_has_no_confidence_witness :
  py_lookup (get_advice {[ "trend" := Raises "boom" ]} "trend") "confidence" = None.
Proof.
  apply (C8_error_advice_has_no_confidence {[ "trend" := Raises "boom" ]} "trend" "boom").
  reflexivity.
Defined.

(** [C10] [AdvisoryTradingStrategyV3._combine_signals] depends on the
    order of its input: the weak-trend discount multiplies only the scores
    accumulated before the ADX signal. On the bar [v3_bar], in the order
    the strategy builds it, the Ichimoku score added after the ADX signal
    escapes the discount and the result is "buy" (score 0.382); moving the
    Ichimoku signal before the ADX one gives "none" (score 0.378). *)
Lemma C10_v3_combine_order_dependent :
  Permutation v3_bar v3_bar_permuted /\
  advice_signal (combine_signals_v3 (38#100) true v3_bar weights_v3) = "buy" /\
  advice_confidence (combine_signals_v3 (38#100) true v3_bar weights_v3) == 382#1000 /\
  advice_signal (combine_signals_v3 (38#100) true v3_bar_permuted weights_v3) = "none" /\
  advice_confidence (combine_signals_v3 (38#100) true v3_bar_permuted weights_v3) == 378#1000.
Proof.
  split; [|split].
  - unfold v3_bar, v3_bar_permuted. do 7 apply perm_skip. apply perm_swap.
  - vm_compute. reflexivity.
  - vm_compute. repeat split.
Qed.

(** * Further properties of the code *)

(** ** Arithmetic helpers *)

Lemma py_min_range (cap x lo : Q) :
  lo < cap -> lo < x -> lo < py_min cap x /\ py_min cap x <= cap.
Proof.
  intros Hc Hx. unfold py_min.
  destruct (qlt x cap) eqn:E;
    [apply qlt_true_iff in E | apply qlt_false_iff in E]; lra.
Qed.

Lemma py_min_lt_iff (cap x c : Q) :
  c < cap -> (py_min cap x < c <-> x < c).
Proof.
  intros Hc. unfold py_min.
  destruct (qlt x cap) eqn:E;
    [apply qlt_true_iff in E | apply qlt_false_iff in E]; split; intros; lra.
Qed.

Lemma qdiv_pos (a b : Q) : 0 < a -> 0 < b -> 0 < a / b.
Proof. intros Ha Hb. apply Qlt_shift_div_l; lra. Qed.

Lemma qdiv_lt_iff (a b c : Q) : 0 < b -> (a / b < c <-> a < c * b).
Proof.
  intros Hb. assert (E : a / b * b == a) by (field; lra).
  split; intros H; nra.
Qed.

Lemma qdiv_gt_iff (a b c : Q) : 0 < b -> (c < a / b <-> c * b < a).
Proof.
  intros Hb. assert (E : a / b * b == a) by (field; lra).
  split; intros H; nra.
Qed.

Ltac qlt_cases t :=
  let E := fresh "E" in
  destruct t eqn:E; [apply qlt_true_iff in E | apply qlt_false_iff in E].

Ltac capped lo :=
  match goal with
  | |- context [py_min ?c ?x] =>
      let A := fresh "A" in let B := fresh "B" in
      destruct (py_min_range c x lo) as [A B]
  end.

(** ** Confidence ranges of the v2 indicator signals *)

(** An RSI signal has a confidence in [0, 0.8]; a buy or sell one has a
    confidence above 0.2. *)
Lemma rsi_signal_confidence_range (ready : bool) (rsi_value : Q) :
  let sg := rsi_signal_v2 ind_params_v2 ready rsi_value in
  0 <= confidence sg <= 8#10 /\
  (signal sg = "buy" \/ signal sg = "sell" -> 2#10 < confidence sg).
Proof.
  unfold rsi_signal_v2, ind_params_v2; cbn [rsi_oversold rsi_overbought].
  destruct ready; cbn [negb].
  2: { cbn [confidence signal]. split; [lra | intros [H|H]; discriminate]. }
  qlt_cases (qlt rsi_value 40).
  - assert (0 < (40 - rsi_value) / 40) by (apply qdiv_pos; lra).
    capped (2#10); [lra | lra |]. cbn [confidence signal]. split; [lra | auto].
  - qlt_cases (qlt 60 rsi_value).
    + assert (0 < (rsi_value - 60) / (100 - 60)) by (apply qdiv_pos; lra).
      capped (2#10); [lra | lra |]. cbn [confidence signal]. split; [lra | auto].
    + cbn [confidence signal]. split; [lra | intros [H|H]; discriminate].
Qed.

Lemma py_max_ge (a b : Q) : a <= py_max a b /\ b <= py_max a b.
Proof.
  unfold py_max. qlt_cases (qlt a b); lra.
Qed.

(** A MACD signal has a confidence in [0, 0.7]; a buy or sell one has a
    confidence above 0.3 (the divisor [max(abs(..), 0.001)] is positive). *)
Lemma macd_signal_confidence_range (ready : bool) (macd_line signal_line : Q) :
  let sg := macd_signal_v2 ready macd_line signal_line in
  0 <= confidence sg <= 7#10 /\
  (signal sg = "buy" \/ signal sg = "sell" -> 3#10 < confidence sg).
Proof.
  unfold macd_signal_v2. destruct ready; cbn [negb].
  2: { cbn [confidence signal]. split; [lra | intros [H|H]; discriminate]. }
  qlt_cases (qlt signal_line macd_line).
  - destruct (py_max_ge (Qabs signal_line) (1#1000)) as [_ Hd].
    assert (0 < (macd_line - signal_line) / py_max (Qabs signal_line) (1#1000))
      by (apply qdiv_pos; lra).
    capped (3#10); [lra | lra |]. cbn [confidence signal]. split; [lra | auto].
  - qlt_cases (qlt macd_line signal_line).
    + destruct (py_max_ge (Qabs macd_line) (1#1000)) as [_ Hd].
      assert (0 < (signal_line - macd_line) / py_max (Qabs macd_line) (1#1000))
        by (apply qdiv_pos; lra).
      capped (3#10); [lra | lra |]. cbn [confidence signal]. split; [lra | auto].
    + cbn [confidence signal]. split; [lra | intros [H|H]; discriminate].
Qed.

(** A KDJ signal has a confidence in [0, 0.7]; a buy or sell one has a
    confidence above 0.2. *)
Lemma kdj_signal_confidence_range (ready : bool) (k d : Q) :
  let sg := kdj_signal_v2 ind_params_v2 ready k d in
  0 <= confidence sg <= 7#10 /\
  (signal sg = "buy" \/ signal sg = "sell" -> 2#10 < confidence sg).
Proof.
  unfold kdj_signal_v2, ind_params_v2; cbn [kdj_oversold kdj_overbought].
  destruct ready; cbn [negb].
  2: { cbn [confidence signal]. split; [lra | intros [H|H]; discriminate]. }
  destruct (qlt k 25 && qlt d 25 && qlt d k) eqn:E.
  - apply andb_true_iff in E as [E E3]. apply andb_true_iff in E as [E1 E2].
    apply qlt_true_iff in E1, E2. pose proof E3 as E3'. apply qlt_true_iff in E3'.
    assert (Hm : py_min k d = d) by (unfold py_min; rewrite E3; reflexivity).
    rewrite Hm.
    assert (0 < (25 - d) / 25) by (apply qdiv_pos; lra).
    capped (2#10); [lra | lra |]. cbn [confidence signal]. split; [lra | auto].
  - destruct (qlt 75 k && qlt 75 d && qlt k d) eqn:F.
    + apply andb_true_iff in F as [F F3]. apply andb_true_iff in F as [F1 F2].
      apply qlt_true_iff in F1, F2, F3.
      assert (Hdk : qlt d k = false) by (apply qlt_false_iff; lra).
      assert (Hm : py_min k d = k) by (unfold py_min; rewrite Hdk; reflexivity).
      rewrite Hm.
      assert (0 < (k - 75) / (100 - 75)) by (apply qdiv_pos; lra).
      capped (2#10); [lra | lra |]. cbn [confidence signal]. split; [lra | auto].
    + cbn [confidence signal]. split; [lra | intros [H|H]; discriminate].
Qed.

(** A trend signal has a confidence in [0, 0.8]; a buy or sell one has a
    confidence above 0.39 (the SMA gap exceeds [trend_threshold] 0.4). *)
Lemma trend_signal_confidence_range (ready : bool) (sma_short sma_long : Q) :
  let sg := trend_signal_v2 ind_params_v2 ready sma_short sma_long in
  0 <= confidence sg <= 8#10 /\
  (signal sg = "buy" \/ signal sg = "sell" -> 39#100 < confidence sg).
Proof.
  unfold trend_signal_v2, ind_params_v2; cbn [trend_threshold].
  destruct ready; cbn [negb].
  2: { cbn [confidence signal]. split; [lra | intros [H|H]; discriminate]. }
  set (diff := (sma_short - sma_long) / sma_long * 100).
  qlt_cases (qlt (4#10) diff).
  - capped (39#100); [lra | lra |]. cbn [confidence signal]. split; [lra | auto].
  - qlt_cases (qlt diff (- (4#10))).
    + assert (Qabs diff == - diff) by (apply Qabs_neg; lra).
      capped (39#100); [lra | lra |]. cbn [confidence signal]. split; [lra | auto].
    + cbn [confidence signal]. split; [lra | intros [H|H]; discriminate].
Qed.

(** A momentum signal has a confidence in [0, 0.6]; a buy or sell one has
    a confidence above 0.32 (the price change exceeds 0.8%). *)
Lemma momentum_signal_confidence_range (ready : bool) (close0 close2 : Q) :
  let sg := momentum_signal_v2 ind_params_v2 ready close0 close2 in
  0 <= confidence sg <= 6#10 /\
  (signal sg = "buy" \/ signal sg = "sell" -> 32#100 < confidence sg).
Proof.
  unfold momentum_signal_v2, ind_params_v2; cbn [momentum_threshold].
  destruct ready; cbn [negb].
  2: { cbn [confidence signal]. split; [lra | intros [H|H]; discriminate]. }
  set (pct := (close0 - close2) / close2 * 100).
  qlt_cases (qlt (8#10) pct).
  - capped (32#100); [lra | lra |]. cbn [confidence signal]. split; [lra | auto].
  - qlt_cases (qlt pct (- (8#10))).
    + assert (Qabs pct == - pct) by (apply Qabs_neg; lra).
      capped (32#100); [lra | lra |]. cbn [confidence signal]. split; [lra | auto].
    + cbn [confidence signal]. split; [lra | intros [H|H]; discriminate].
Qed.

(** With positive bands, a Bollinger signal has a confidence in [0, 0.6]. A
    sell signal (price above 0.985 times the upper band) has a confidence
    above 0.18, and below 0.3 exactly when the price is still under the
    upper band; symmetrically for a buy signal and the lower band. *)
Lemma bollinger_signal_confidence_range (ready : bool) (current_price upper_bb lower_bb : Q)
    (Hu : 0 < upper_bb) (Hl : 0 < lower_bb) :
  let sg := bollinger_signal_v2 ind_params_v2 ready current_price upper_bb lower_bb in
  0 <= confidence sg <= 6#10 /\
  (signal sg = "sell" ->
     18#100 < confidence sg /\ (confidence sg < 3#10 <-> current_price < upper_bb)) /\
  (signal sg = "buy" ->
     18#100 < confidence sg /\ (confidence sg < 3#10 <-> lower_bb < current_price)).
Proof.
  unfold bollinger_signal_v2, ind_params_v2;
    cbn [bollinger_upper_threshold bollinger_lower_threshold].
  destruct ready; cbn [negb].
  2: { cbn [confidence signal]. split; [lra | split; intros H; discriminate]. }
  qlt_cases (qlt (upper_bb * (985#1000)) current_price).
  - assert (H1 : - (15#1000) < (current_price - upper_bb) / upper_bb)
      by (apply qdiv_gt_iff; lra).
    assert (H2 : (current_price - upper_bb) / upper_bb < 0 <-> current_price < upper_bb)
      by (rewrite qdiv_lt_iff by lra; lra).
    capped (18#100); [lra | lra |].
    pose proof (py_min_lt_iff (6#10) ((current_price - upper_bb) / upper_bb * 8 + (3#10))
                  (3#10) ltac:(lra)) as H3.
    cbn [confidence signal]. split; [lra | split; [|intros H; discriminate]].
    intros _. split; [lra|]. rewrite H3, <- H2. lra.
  - qlt_cases (qlt current_price (lower_bb * (1015#1000))).
    + assert (H1 : - (15#1000) < (lower_bb - current_price) / lower_bb)
        by (apply qdiv_gt_iff; lra).
      assert (H2 : (lower_bb - current_price) / lower_bb < 0 <-> lower_bb < current_price)
        by (rewrite qdiv_lt_iff by lra; lra).
      capped (18#100); [lra | lra |].
      pose proof (py_min_lt_iff (6#10) ((lower_bb - current_price) / lower_bb * 8 + (3#10))
                    (3#10) ltac:(lra)) as H3.
      cbn [confidence signal]. split; [lra | split; [intros H; discriminate|]].
      intros _. split; [lra|]. rewrite H3, <- H2. lra.
    + cbn [confidence signal]. split; [lra | split; intros H; discriminate].
Qed.

Lemma bollinger_signal_confidence_range_witness :
  signal (bollinger_signal_v2 ind_params_v2 true 104 105 95) = "sell" /\
  confidence (bollinger_signal_v2 ind_params_v2 true 104 105 95) < 3#10.
Proof.
  pose proof (bollinger_signal_confidence_range true 104 105 95
                ltac:(vm_compute; reflexivity) ltac:(vm_compute; reflexivity)) as H.
  cbv zeta in H. destruct H as [_ [Hs _]].
  assert (E : signal (bollinger_signal_v2 ind_params_v2 true 104 105 95) = "sell")
    by (vm_compute; reflexivity).
  split; [exact E|]. apply (proj2 (Hs E)). vm_compute. reflexivity.
Defined.

(** With a positive volume and volume average, a volume signal has a
    confidence in [0, 0.6]; a buy or sell one has a confidence above 0.1. *)
Lemma volume_signal_confidence_range (ready : bool) (cross volume volume_sma : Q)
    (Hv : 0 < volume) (Hs : 0 < volume_sma) :
  let sg := volume_signal_v2 ready cross volume volume_sma in
  0 <= confidence sg <= 6#10 /\
  (signal sg = "buy" \/ signal sg = "sell" -> 1#10 < confidence sg).
Proof.
  unfold volume_signal_v2. destruct ready; cbn [negb].
  2: { cbn [confidence signal]. split; [lra | intros [H|H]; discriminate]. }
  destruct (Qeq_bool cross 1).
  - assert (0 < volume / volume_sma) by (apply qdiv_pos; lra).
    capped (1#10); [lra | lra |]. cbn [confidence signal]. split; [lra | auto].
  - destruct (Qeq_bool cross (-1)).
    + assert (0 < volume_sma / volume) by (apply qdiv_pos; lra).
      capped (1#10); [lra | lra |]. cbn [confidence signal]. split; [lra | auto].
    + cbn [confidence signal]. split; [lra | intros [H|H]; discriminate].
Qed.

Lemma volume_signal_confidence_range_witness :
  1#10 < confidence (volume_signal_v2 true 1 500 1000).
Proof.
  pose proof (volume_signal_confidence_range true 1 500 1000
                ltac:(vm_compute; reflexivity) ltac:(vm_compute; reflexivity)) as H.
  cbv zeta in H. destruct H as [_ H]. apply H. left. vm_compute. reflexivity.
Defined.

(** ** [_combine_signals] of v2: neutral signals, monotonicity *)

(** Signals other than "buy" and "sell" (the "none" results of the
    indicator generators) do not affect the decision of the v2
    combination: dropping them gives the same advice signal and the same
    confidence (they only add a "neutral" entry to the [reasoning] text,
    which [Advice] does not model). *)
Lemma combine_signals_v2_ignores_neutral (threshold : Q) (l : list Signal) (w : gmap string Q) :
  advice_signal (combine_signals_v2 threshold
    (List.filter (fun s => String.eqb (signal s) "buy" || String.eqb (signal s) "sell") l) w) =
  advice_signal (combine_signals_v2 threshold l w) /\
  advice_confidence (combine_signals_v2 threshold
    (List.filter (fun s => String.eqb (signal s) "buy" || String.eqb (signal s) "sell") l) w) =
  advice_confidence (combine_signals_v2 threshold l w).
Proof.
  unfold combine_signals_v2.
  assert (E : forall a,
    fold_left (combine_step_v2 w)
      (List.filter (fun s => String.eqb (signal s) "buy" || String.eqb (signal s) "sell") l) a =
    fold_left (combine_step_v2 w) l a).
  { induction l as [|s l IH]; intros a; simpl; [reflexivity|].
    destruct (String.eqb (signal s) "buy") eqn:B; simpl; [apply IH|].
    destruct (String.eqb (signal s) "sell") eqn:S; simpl; [apply IH|].
    rewrite IH. f_equal. unfold combine_step_v2. rewrite ?B, ?S. reflexivity. }
  rewrite E. split; reflexivity.
Qed.

(** A "buy" advice of the v2 combination stays "buy" when one more buy
    signal with a non-negative weighted confidence is added. *)
Lemma combine_signals_v2_buy_monotone (threshold : Q) (l : list Signal)
    (w : gmap string Q) (s : Signal)
    (Hbuy : advice_signal (combine_signals_v2 threshold l w) = "buy")
    (Hs : signal s = "buy")
    (Hw : 0 <= confidence s * dict_get w (stype s) (1#10)) :
  advice_signal (combine_signals_v2 threshold (l ++ [s]) w) = "buy".
Proof.
  unfold combine_signals_v2 in *. rewrite fold_left_app. simpl.
  set (a := fold_left (combine_step_v2 w) l acc0) in *.
  destruct ((1 <=? buy_votes a)%nat && qlt threshold (total_buy a)
            && qlt (total_sell a) (total_buy a)) eqn:E.
  2: { exfalso. destruct (_ && _ && _) in Hbuy; simpl in Hbuy; discriminate. }
  assert (Hstep : combine_step_v2 w a s =
    mkAcc (S (buy_votes a)) (sell_votes a)
          (total_buy a + confidence s * dict_get w (stype s) (1#10)) (total_sell a))
    by (unfold combine_step_v2; rewrite Hs; reflexivity).
  rewrite Hstep. cbn -[qlt].
  apply andb_true_iff in E as [E E3]. apply andb_true_iff in E as [E1 E2].
  apply qlt_true_iff in E2, E3.
  assert (G2 : qlt threshold (total_buy a + confidence s * dict_get w (stype s) (1#10)) = true)
    by (apply qlt_true_iff; lra).
  assert (G3 : qlt (total_sell a) (total_buy a + confidence s * dict_get w (stype s) (1#10)) = true)
    by (apply qlt_true_iff; lra).
  rewrite G2, G3. reflexivity.
Qed.

Lemma combine_signals_v2_buy_monotone_witness :
  advice_signal (combine_signals_v2 (28#100)
    [mkSignal "buy" (8#10) "trend"; mkSignal "buy" (6#10) "rsi"; mkSignal "sell" (1#2) "macd";
     mkSignal "buy" (3#10) "volume"] weights_v2) = "buy".
Proof.
  apply (combine_signals_v2_buy_monotone (28#100)
    [mkSignal "buy" (8#10) "trend"; mkSignal "buy" (6#10) "rsi"; mkSignal "sell" (1#2) "macd"]
    weights_v2 (mkSignal "buy" (3#10) "volume")); vm_compute; [reflexivity|reflexivity|discriminate].
Defined.

(** ** [_combine_signals] of v3: votes *)

Lemma fold_combine_v3_votes (w : gmap string Q) (l : list Signal) (a : Acc) :
  buy_votes (fold_left (combine_step_v3 w) l a) =
    (buy_votes a + count_signals ["buy"; "trend_strong"] l)%nat /\
  sell_votes (fold_left (combine_step_v3 w) l a) =
    (sell_votes a + count_signals ["sell"] l)%nat.
Proof.
  revert a. induction l as [|s l IH]; intros a; simpl.
  - unfold count_signals. simpl. split; lia.
  - destruct (IH (combine_step_v3 w a s)) as [IH1 IH2]. rewrite IH1, IH2.
    unfold count_signals, combine_step_v3. cbn [List.filter existsb].
    destruct (String.eqb_spec (signal s) "buy") as [Hb|Hb];
      [try rewrite Hb; cbn; split; lia|].
    destruct (String.eqb_spec (signal s) "trend_strong") as [Ht|Ht];
      [try rewrite Ht; cbn; split; lia|].
    destruct (String.eqb_spec (signal s) "sell") as [Hs|Hs];
      [try rewrite Hs; cbn; split; lia|].
    cbn [orb length]. destruct (String.eqb (signal s) "trend_weak"); cbn; split; lia.
Qed.

(** The v3 combination answers "buy" only when at least two of its input
    signals are "buy" or "trend_strong", and "sell" only when at least two
    are "sell", whatever the scores. *)
Lemma combine_signals_v3_needs_two_votes (threshold : Q) (volume_confirm : bool)
    (l : list Signal) (w : gmap string Q) :
  (advice_signal (combine_signals_v3 threshold volume_confirm l w) = "buy" ->
     (2 <= count_signals ["buy"; "trend_strong"] l)%nat) /\
  (advice_signal (combine_signals_v3 threshold volume_confirm l w) = "sell" ->
     (2 <= count_signals ["sell"] l)%nat).
Proof.
  unfold combine_signals_v3.
  destruct (fold_combine_v3_votes w l acc0) as [Hb Hs].
  set (a0 := fold_left (combine_step_v3 w) l acc0) in *.
  cbn [buy_votes sell_votes acc0] in Hb, Hs.
  set (a := if volume_confirm then a0 else _).
  assert (Va : buy_votes a = buy_votes a0 /\ sell_votes a = sell_votes a0)
    by (subst a; destruct volume_confirm; split; reflexivity).
  destruct Va as [Va1 Va2].
  destruct ((2 <=? buy_votes a)%nat && _ && _) eqn:E1.
  - apply andb_true_iff in E1 as [E1 _]. apply andb_true_iff in E1 as [E1 _].
    apply Nat.leb_le in E1. split; intros H; [lia | discriminate].
  - destruct ((2 <=? sell_votes a)%nat && _ && _) eqn:E2.
    + apply andb_true_iff in E2 as [E2 _]. apply andb_true_iff in E2 as [E2 _].
      apply Nat.leb_le in E2. split; intros H; [discriminate | lia].
    + split; intros H; discriminate.
Qed.

(** ** [next] of v3 and of the optimized strategy *)

Lemma trade_decision_v3_no_short (p : Params) (s : Strat) (x : Q) (sg : string) :
  trade_decision_v3 p s x sg = trade_decision (no_short p) s x sg.
Proof.
  unfold trade_decision_v3, trade_decision. cbn [no_short trade_size max_position_ratio
    allow_short_selling].
  destruct (String.eqb sg "buy" && _); [reflexivity|].
  destruct (String.eqb sg "sell"); cbn [andb]; [|reflexivity].
  destruct (negb _); reflexivity.
Qed.

(** [AdvisoryTradingStrategyV3.next] takes the same decisions as
    [AdvisoryTradingStrategyV2.next] with short selling disabled. *)
Lemma next_v3_is_next_no_short (p : Params) (s : Strat) (x : Q) (adv : Advice) :
  next_v3 p s x adv = next (no_short p) s x adv.
Proof.
  unfold next_v3, next.
  assert (Hg : can_trade (no_short p) s x = can_trade p s x) by reflexivity.
  assert (Hr : should_sell_due_to_risk (no_short p) s x = should_sell_due_to_risk p s x)
    by reflexivity.
  rewrite Hg, Hr.
  destruct (negb (can_trade p s x)); [reflexivity|].
  destruct (if (pos_size s =? 0)%Z then _ else _) as [[r|] s1]; [reflexivity|].
  apply trade_decision_v3_no_short.
Qed.

(** Every sell order of v3's [next], from the risk overlay or from a
    "sell" advice, is for [position.size] of the state it is called on,
    which is non-zero. *)
Lemma next_v3_sell_closes_position (p : Params) (s : Strat) (x : Q) (adv : Advice) (z : Z)
    (H : snd (next_v3 p s x adv) = Some (Sell z)) :
  pos_size s <> 0%Z /\ z = pos_size s.
Proof.
  unfold next_v3 in H. destruct (negb (can_trade p s x)); [discriminate|].
  destruct (pos_size s =? 0)%Z eqn:Hz.
  - unfold trade_decision_v3 in H. cbn [set_current pos_size] in H. rewrite Hz in H.
    destruct (String.eqb _ "buy" && true); [destruct (0 <? _)%Z; discriminate|].
    rewrite andb_false_r in H. discriminate.
  - apply Z.eqb_neq in Hz.
    destruct (should_sell_due_to_risk p s x) as [[r|] s1] eqn:R;
      destruct (risk_frame _ _ _ _ _ R) as [Hp _].
    + cbn in H. injection H as <-. split; [exact Hz | exact Hp].
    + unfold trade_decision_v3 in H. cbn [set_current pos_size] in H.
      destruct (String.eqb _ "buy" && _); [destruct (0 <? _)%Z; discriminate|].
      destruct (String.eqb _ "sell" && _); [|discriminate].
      cbn in H. injection H as <-. split; [exact Hz | exact Hp].
Qed.

Lemma next_v3_buy_positive (p : Params) (s : Strat) (x : Q) (adv : Advice) (z : Z) :
  snd (next_v3 p s x adv) = Some (Buy z) -> (0 < z)%Z /\ pos_size s = 0%Z.
Proof.
  intros H. unfold next_v3 in H. destruct (negb (can_trade p s x)); [discriminate|].
  destruct (pos_size s =? 0)%Z eqn:Hz.
  - unfold trade_decision_v3 in H. cbn [set_current pos_size] in H. rewrite Hz in H.
    destruct (String.eqb _ "buy" && true).
    + destruct (0 <? _)%Z eqn:Hs; [|discriminate].
      cbn in H. injection H as <-. apply Z.ltb_lt in Hs. apply Z.eqb_eq in Hz. auto.
    + rewrite andb_false_r in H. discriminate.
  - destruct (should_sell_due_to_risk p s x) as [[r|] s1] eqn:R;
      destruct (risk_frame _ _ _ _ _ R) as [Hp _]; [discriminate|].
    unfold trade_decision_v3 in H. cbn [set_current pos_size] in H.
    rewrite Hp, Hz, andb_false_r in H.
    destruct (String.eqb _ "sell" && _); discriminate.
Qed.

Lemma pos_size_on_order (s : Strat) (e : OrderEvent) :
  pos_size (on_order s e) = pos_size (broker_fill s e).
Proof.
  unfold on_order, notify_order.
  destruct (ev_status e); try reflexivity. destruct (ev_isbuy e); reflexivity.
Qed.

(** v3 never goes short: from a flat or long position, every order its
    [next] emits leaves a flat or long position once completely filled,
    since its buys have a positive size and its sells are for exactly the
    open long position. *)
Lemma next_v3_never_short (p : Params) (s s' : Strat) (x : Q) (adv : Advice) (o : Order)
    (Hpos : (0 <= pos_size s)%Z) (H : next_v3 p s x adv = (s', Some o)) :
  (0 <= pos_size (on_order s' (fill_event o x)))%Z.
Proof.
  assert (Hs' : pos_size s' = pos_size s).
  { unfold next_v3 in H. destruct (negb (can_trade p s x)); [discriminate|].
    destruct (if (pos_size s =? 0)%Z then _ else _) as [[r|] s1] eqn:R.
    - destruct (pos_size s =? 0)%Z; [discriminate|].
      destruct (risk_frame _ _ _ _ _ R) as [Hp _].
      injection H as <- _. exact Hp.
    - assert (Hp : pos_size s1 = pos_size s).
      { destruct (pos_size s =? 0)%Z; [injection R as <-; reflexivity|].
        exact (proj1 (risk_frame _ _ _ _ _ R)). }
      unfold trade_decision_v3 in H.
      destruct (String.eqb _ "buy" && _); [destruct (0 <? _)%Z|];
        [|discriminate|destruct (String.eqb _ "sell" && _); [|discriminate]];
        injection H as <- _; cbn; exact Hp. }
  rewrite pos_size_on_order. destruct o as [z|z].
  - destruct (next_v3_buy_positive p s x adv z) as [Hz _]; [rewrite H; reflexivity|].
    unfold broker_fill, fill_event. cbn. lia.
  - destruct (next_v3_sell_closes_position p s x adv z) as [Hz Hzs]; [rewrite H; reflexivity|].
    unfold broker_fill, fill_event. cbn. rewrite Hs'. subst z. lia.
Qed.

Lemma next_v3_never_short_witness :
  (0 <= pos_size (on_order (set_order long_rich true) (fill_event (Sell 100) 95)))%Z.
Proof.
  apply (next_v3_never_short params_v2 long_rich (set_order long_rich true) 95
           (mkAdvice "none" 0) (Sell 100)); [simpl; lia | vm_compute; reflexivity].
Defined.

(** The optimized strategy has no risk overlay: its [next] emits a sell
    order only on a "sell" advice with an open position, and then sells
    exactly that position (a fall through any stop level alone never
    sells). *)
Lemma next_opt_sell_only_on_advice (p : Params) (s : Strat) (x : Q) (adv : Advice) (z : Z)
    (H : snd (next_opt p s x adv) = Some (Sell z)) :
  advice_signal adv = "sell" /\ pos_size s <> 0%Z /\ z = pos_size s.
Proof.
  unfold next_opt in H. destruct (negb (can_trade_opt p s x)); [discriminate|].
  unfold trade_decision_v3 in H. cbn [set_current pos_size] in H.
  destruct (String.eqb _ "buy" && _); [destruct (0 <? _)%Z; discriminate|].
  destruct (String.eqb (advice_signal adv) "sell") eqn:Hs; [|discriminate].
  destruct (pos_size s =? 0)%Z eqn:Hz; [discriminate|].
  cbn in H. injection H as <-. apply String.eqb_eq in Hs. apply Z.eqb_neq in Hz. auto.
Qed.

Lemma next_opt_sell_only_on_advice_witness :
  advice_signal (mkAdvice "sell" (1#2)) = "sell" /\ pos_size long_rich <> 0%Z /\
  100%Z = pos_size long_rich.
Proof.
  apply (next_opt_sell_only_on_advice params_v2 long_rich 150 (mkAdvice "sell" (1#2))).
  vm_compute. reflexivity.
Defined.

Lemma py_int_le (x : Q) : 0 <= x -> inject_Z (py_int x) <= x.
Proof.
  destruct x as [n d]. unfold py_int, Qle, inject_Z. cbn [Qnum Qden].
  intros H. rewrite Z.mul_0_l, Z.mul_1_r in H.
  rewrite Z.mul_1_r, Z.quot_div_nonneg by lia.
  rewrite Z.mul_comm. apply Z.mul_div_le. lia.
Qed.

(** For a positive price and a non-negative [min_trade_value], the
    optimized strategy's [_can_trade] (unrounded minimum share count) is
    stricter than v2's (truncated minimum): whenever it allows trading,
    v2's allows it too. The converse fails: with cash 1150 and price 150,
    v2 allows a trade (6 shares affordable, minimum 6) and the optimized
    strategy does not (minimum 6.67 shares). *)
Lemma can_trade_opt_stricter (p : Params) (s : Strat) (x : Q)
    (Hx : 0 < x) (Hm : 0 <= min_trade_value p) :
  (can_trade_opt p s x = true -> can_trade p s x = true) /\
  (can_trade params_v2 (init_strat 1150) 150 = true /\
   can_trade_opt params_v2 (init_strat 1150) 150 = false).
Proof.
  split; [|vm_compute; split; reflexivity].
  unfold can_trade_opt, can_trade. destruct (order_pending s); [discriminate|].
  set (m := min_trade_value p / x). set (M := py_int (cash s * max_position_ratio p / x)).
  assert (Hm0 : 0 <= m) by (apply Qle_shift_div_l; lra).
  pose proof (py_int_le m Hm0) as Hi.
  intros Hle. apply Qle_bool_iff in Hle. apply Z.leb_le.
  assert (H1 : 1 <= inject_Z M /\ m <= inject_Z M).
  { destruct (qlt m 1) eqn:E; [apply qlt_true_iff in E | apply qlt_false_iff in E];
      split; lra. }
  destruct H1 as [H1 H2].
  assert (H3 : inject_Z (py_int m) <= inject_Z M) by lra.
  assert (H4 : inject_Z 1 <= inject_Z M) by exact H1.
  rewrite <- Zle_Qle in H3, H4. lia.
Qed.

Lemma can_trade_opt_stricter_witness :
  can_trade params_v2 (init_strat 50000) 150 = true.
Proof.
  refine (proj1 (can_trade_opt_stricter params_v2 (init_strat 50000) 150 _ _) _);
    vm_compute; [reflexivity | discriminate | reflexivity].
Defined.

(** ** [_generate_advisory_signal] of v2 and [next] *)

(** With fewer than 15 bars of data, v2's advice is "none" with
    confidence 0, and [next] opens no position: the only order it can emit
    is a risk exit selling the whole current position. *)
Lemma next_v2_warmup_no_entry (p : Params) (s : Strat) (x : Q) (data_len : nat)
    (signals : list Signal) (Hn : (data_len < 15)%nat) (o : Order)
    (H : snd (next p s x (generate_advisory_signal_v2 p data_len signals)) = Some o) :
  generate_advisory_signal_v2 p data_len signals = mkAdvice "none" 0 /\
  pos_size s <> 0%Z /\ o = Sell (pos_size s).
Proof.
  assert (Ha : generate_advisory_signal_v2 p data_len signals = mkAdvice "none" 0)
    by (unfold generate_advisory_signal_v2; apply Nat.ltb_lt in Hn; rewrite Hn; reflexivity).
  split; [exact Ha|]. rewrite Ha in H.
  unfold next in H. destruct (negb (can_trade p s x)); [discriminate|].
  destruct (pos_size s =? 0)%Z eqn:Hz.
  - unfold trade_decision in H. cbn [advice_signal] in H. discriminate.
  - apply Z.eqb_neq in Hz.
    destruct (should_sell_due_to_risk p s x) as [[r|] s1] eqn:R.
    + destruct (risk_frame _ _ _ _ _ R) as [Hp _].
      cbn in H. injection H as <-. rewrite Hp. auto.
    + unfold trade_decision in H. cbn [advice_signal] in H. discriminate.
Qed.

Lemma next_v2_warmup_no_entry_witness :
  generate_advisory_signal_v2 params_v2 10 [] = mkAdvice "none" 0 /\
  pos_size long_rich <> 0%Z /\ Sell 100 = Sell (pos_size long_rich).
Proof.
  apply (next_v2_warmup_no_entry params_v2 long_rich 95 10 [] ltac:(lia) (Sell 100)).
  vm_compute. reflexivity.
Defined.

(** ** Trade statistics of [notify_order] *)

(** In v2 a completed sell that closes the whole position is never
    counted as a successful trade, whatever its price: by the time
    [notify_order] runs the position is already flat, and the profit is
    only looked at [if self.position]. *)
Lemma notify_stats_v2_close_not_counted (st : Stats) (s : Strat) (e : OrderEvent)
    (Hc : ev_status e = Completed) (Hs : ev_isbuy e = false) (Hz : ev_size e = pos_size s) :
  successful_trades (notify_stats_v2 st (broker_fill s e) e) = successful_trades st /\
  trade_count (notify_stats_v2 st (broker_fill s e) e) = S (trade_count st).
Proof.
  unfold notify_stats_v2, broker_fill. rewrite Hc, Hs. cbn [pos_size].
  rewrite Hz, Z.add_opp_diag_r. split; reflexivity.
Qed.

Lemma notify_stats_v2_close_not_counted_witness :
  successful_trades (notify_stats_v2 (mkStats 1 1 0 0) (broker_fill long_rich
    (mkEvent Completed false 150 100)) (mkEvent Completed false 150 100)) = 0%nat /\
  trade_count (notify_stats_v2 (mkStats 1 1 0 0) (broker_fill long_rich
    (mkEvent Completed false 150 100)) (mkEvent Completed false 150 100)) = 2%nat.
Proof.
  apply (notify_stats_v2_close_not_counted (mkStats 1 1 0 0) long_rich
           (mkEvent Completed false 150 100)); reflexivity.
Defined.

(** In v3 every completed sell is scored against the entry price: with a
    positive entry price it counts as a successful trade exactly when it
    was executed above that price. *)
Lemma notify_stats_v3_sell_counted (st : Stats) (s : Strat) (e : OrderEvent)
    (Hc : ev_status e = Completed) (Hs : ev_isbuy e = false) (He : 0 < entry_price s) :
  option_map successful_trades (notify_stats_v3 st s e) =
    Some (if qlt (entry_price s) (ev_price e) then S (successful_trades st)
          else successful_trades st).
Proof.
  unfold notify_stats_v3. rewrite Hc, Hs.
  assert (Hq : Qeq_bool (entry_price s) 0 = false).
  { destruct (Qeq_bool (entry_price s) 0) eqn:E; [|reflexivity].
    apply Qeq_bool_iff in E. lra. }
  rewrite Hq. cbn [option_map count_completed successful_trades].
  assert (Hp : qlt 0 ((ev_price e - entry_price s) / entry_price s * 100) =
               qlt (entry_price s) (ev_price e)).
  { destruct (qlt (entry_price s) (ev_price e)) eqn:E;
      [apply qlt_true_iff in E | apply qlt_false_iff in E].
    - apply qlt_true_iff. assert (0 < (ev_price e - entry_price s) / entry_price s)
        by (apply qdiv_pos; lra). lra.
    - apply qlt_false_iff.
      assert ((ev_price e - entry_price s) / entry_price s <= 0)
        by (apply Qle_shift_div_r; lra). lra. }
  rewrite Hp. reflexivity.
Qed.

Lemma notify_stats_v3_sell_counted_witness :
  option_map successful_trades (notify_stats_v3 (mkStats 1 1 0 0) (broker_fill long_rich
    (mkEvent Completed false 150 100)) (mkEvent Completed false 150 100)) = Some 1%nat.
Proof.
  apply (notify_stats_v3_sell_counted (mkStats 1 1 0 0)
           (broker_fill long_rich (mkEvent Completed false 150 100))
           (mkEvent Completed false 150 100)); vm_compute; reflexivity.
Defined.

(** Both versions keep [trade_count == buy_count + sell_count]: each
    completed order increments the total and exactly one of the two
    counters, other notifications change none of them. *)
Lemma notify_stats_count_invariant (st : Stats) (s : Strat) (e : OrderEvent)
    (Hinv : trade_count st = (buy_count st + sell_count st)%nat) :
  trade_count (notify_stats_v2 st s e) =
    (buy_count (notify_stats_v2 st s e) + sell_count (notify_stats_v2 st s e))%nat /\
  (forall st', notify_stats_v3 st s e = Some st' ->
     trade_count st' = (buy_count st' + sell_count st')%nat).
Proof.
  assert (Hc : forall b n, trade_count (count_completed st b n) =
            (buy_count (count_completed st b n) + sell_count (count_completed st b n))%nat)
    by (intros [|] n; cbn; lia).
  split.
  - unfold notify_stats_v2. destruct (ev_status e); auto.
  - unfold notify_stats_v3. intros st'.
    destruct (ev_status e); try (intros H; injection H as <-; exact Hinv).
    destruct (ev_isbuy e); [intros H; injection H as <-; apply Hc|].
    destruct (Qeq_bool _ _); [discriminate|]. intros H; injection H as <-; apply Hc.
Qed.

Lemma notify_stats_count_invariant_witness :
  trade_count (notify_stats_v2 (mkStats 3 2 1 0) long_rich (mkEvent Completed false 150 100)) =
  (buy_count (notify_stats_v2 (mkStats 3 2 1 0) long_rich (mkEvent Completed false 150 100)) +
   sell_count (notify_stats_v2 (mkStats 3 2 1 0) long_rich (mkEvent Completed false 150 100)))%nat.
Proof.
  destruct (notify_stats_count_invariant (mkStats 3 2 1 0) long_rich
           (mkEvent Completed false 150 100) eq_refl) as [H _].
  exact H.
Defined.

(** ** The advisor registry *)

(** [get_advisor_by_name] after [add_advisor name advisor] finds
    [advisor] under [name] and answers as before for every other name;
    [all_advisors] grows by exactly that advisor. *)
Lemma get_advisor_after_add {A : Type} (r : Registry A) (name : string) (advisor : A)
    (m : string) :
  get_advisor_by_name (add_advisor r name advisor) m =
    (if String.eqb m name then Some advisor else get_advisor_by_name r m) /\
  all_advisors (add_advisor r name advisor) = all_advisors r ++ [advisor].
Proof.
  unfold get_advisor_by_name, add_advisor. cbn [advisor_names all_advisors].
  split; [|reflexivity].
  destruct (String.eqb_spec m name) as [->|Hne].
  - apply lookup_insert_eq.
  - apply lookup_insert_ne. congruence.
Qed.

(** Registering a list of named advisors from the empty registry keeps
    every advisor in [all_advisors], in order and duplicates included,
    while the name map holds, for each name, the advisor of its last
    registration. *)
Lemma add_advisors_spec {A : Type} (l : list (string * A)) :
  all_advisors (add_advisors empty_registry l) = map snd l /\
  advisor_names (add_advisors empty_registry l) = list_to_map (rev l).
Proof.
  induction l as [|[k v] l IH] using rev_ind.
  - split; reflexivity.
  - assert (E : add_advisors empty_registry (l ++ [(k, v)]) =
                add_advisor (add_advisors empty_registry l) k v)
      by (unfold add_advisors; rewrite fold_left_app; reflexivity).
    rewrite E. destruct IH as [IH1 IH2]. unfold add_advisor.
    cbn [all_advisors advisor_names].
    rewrite IH1, IH2, map_app, rev_app_distr. split; reflexivity.
Qed.

(** ** [get_advice] *)

Lemma parse_advice_signal (reasoning : string) :
  exists sg, py_lookup (parse_advice reasoning) "signal" = Some (VStr sg) /\
             In sg ["bullish"; "bearish"; "neutral"; "none"].
Proof.
  unfold parse_advice.
  destruct (any_in ["bullish"; "buy"; "上涨"; "看涨"] _);
    [|destruct (any_in ["bearish"; "sell"; "下跌"; "看跌"] _);
      [|destruct (any_in ["neutral"; "hold"; "中性"] _)]];
    eexists; (split; [reflexivity | cbn; tauto]).
Qed.

(** Whatever the advisor does (missing, raising, silent or answering),
    [get_advice] returns a "signal" entry holding one of "bullish",
    "bearish", "neutral" or "none". *)
Lemma get_advice_signal_values (advisors : gmap string UpdateOutcome) (name : string) :
  exists sg, py_lookup (get_advice advisors name) "signal" = Some (VStr sg) /\
             In sg ["bullish"; "bearish"; "neutral"; "none"].
Proof.
  unfold get_advice.
  destruct (advisors !! name) as [[msg|contents]|];
    [| destruct (List.last (map Some contents) None) as [reasoning|];
       [apply parse_advice_signal|] |];
    eexists; (split; [reflexivity | cbn; tauto]).
Qed.

(** The keyword tests run bullish first: when the advisor's last message
    contains "buy" (in any letter case), the advice is "bullish" with
    confidence 0.7, even if the message also says "sell" or "bearish". *)
Lemma get_advice_buy_keyword_wins (advisors : gmap string UpdateOutcome) (name : string)
    (contents : list string) (msg : string)
    (Hadv : advisors !! name = Some (Returns (contents ++ [msg])))
    (Hbuy : str_contains "buy" (str_lower msg) = true) :
  py_lookup (get_advice advisors name) "signal" = Some (VStr "bullish") /\
  py_lookup (get_advice advisors name) "confidence" = Some (VNum (7#10)).
Proof.
  unfold get_advice. rewrite Hadv, map_app. cbn [map]. rewrite last_last.
  unfold parse_advice.
  assert (H : any_in ["bullish"; "buy"; "上涨"; "看涨"] (str_lower msg) = true)
    by (unfold any_in; cbn [existsb]; rewrite Hbuy, orb_true_r; reflexivity).
  rewrite H. split; reflexivity.
Qed.

Lemma get_advice_buy_keyword_wins_witness :
  py_lookup (get_advice {[ "trend" := Returns ["Do not BUY here, SELL now"] ]} "trend")
    "signal" = Some (VStr "bullish").
Proof.
  refine (proj1 (get_advice_buy_keyword_wins
    ({[ "trend" := Returns ["Do not BUY here, SELL now"] ]} : gmap string UpdateOutcome)
    "trend" [] "Do not BUY here, SELL now" _ _)); vm_compute; reflexivity.
Defined.

(** [get_advice] returns a "confidence" entry exactly when the advisor is
    registered, its update does not raise, and it produced at least one
    message. *)
Lemma get_advice_confidence_iff (advisors : gmap string UpdateOutcome) (name : string) :
  py_lookup (get_advice advisors name) "confidence" <> None <->
  exists contents, advisors !! name = Some (Returns contents) /\ contents <> [].
Proof.
  unfold get_advice.
  destruct (advisors !! name) as [[msg|contents]|].
  - split; [intros H; exfalso; apply H; reflexivity|].
    intros (c & Hc & _). discriminate.
  - destruct contents as [|c cs] using rev_ind.
    + split; [intros H; exfalso; apply H; reflexivity|].
      intros (c & Hc & Hne). injection Hc as <-. contradiction.
    + rewrite map_app. cbn [map]. rewrite last_last.
      split; [|intros _; unfold parse_advice; destruct (any_in _ _);
                 [|destruct (any_in _ _); [|destruct (any_in _ _)]]; discriminate].
      intros _. exists (cs ++ [c]). split; [reflexivity|].
      intros H. destruct cs; discriminate.
  - split; [intros H; exfalso; apply H; reflexivity|].
    intros (c & Hc & _). discriminate.
Qed.

(** ** [get_consensus_signal] *)

Lemma consensus_counts_length (l : list PyDict) :
  let '(bu, be, ne) := consensus_counts l in (bu + be + ne = length l)%nat.
Proof.
  induction l as [|d l IH]; cbn; [reflexivity|].
  destruct (consensus_counts l) as [[bu be] ne].
  destruct (String.eqb _ "bullish"); [|destruct (String.eqb _ "bearish")]; cbn; lia.
Qed.

(** A "bullish" (or "bearish") consensus needs a strict plurality: the
    winning count is at least a third of the advisors plus two thirds.
    With the four advisors the example's [next] consults, a bullish
    consensus therefore always has at least two bullish advisors. *)
Lemma consensus_needs_plurality (l : list PyDict) :
  let '(bu, be, ne) := consensus_counts l in
  (get_consensus_signal l = "bullish" -> (length l + 2 <= 3 * bu)%nat) /\
  (get_consensus_signal l = "bearish" -> (length l + 2 <= 3 * be)%nat) /\
  (get_consensus_signal l = "bullish" -> length l = 4%nat -> (2 <= bu)%nat).
Proof.
  pose proof (consensus_counts_length l) as Hlen.
  unfold get_consensus_signal.
  destruct (consensus_counts l) as [[bu be] ne].
  destruct ((be <? bu)%nat && (ne <? bu)%nat) eqn:E1.
  - apply andb_true_iff in E1 as [E1 E2]. apply Nat.ltb_lt in E1, E2.
    repeat split; intros; try discriminate; lia.
  - destruct ((bu <? be)%nat && (ne <? be)%nat) eqn:E2.
    + apply andb_true_iff in E2 as [E2 E3]. apply Nat.ltb_lt in E2, E3.
      repeat split; intros; try discriminate; lia.
    + repeat split; intros; discriminate.
Qed.

(** When every consulted advisor is missing, raises, or returns no
    message, each advice has signal "none", counted as neutral, and the
    consensus is "neutral". *)
Lemma consensus_all_failed_neutral (advisors : gmap string UpdateOutcome) (names : list string)
    (H : Forall (fun n => advisors !! n = None \/ (exists msg, advisors !! n = Some (Raises msg))
                          \/ advisors !! n = Some (Returns [])) names) :
  consensus_counts (collect_advice advisors names) = (0, 0, length names)%nat /\
  get_consensus_signal (collect_advice advisors names) = "neutral".
Proof.
  assert (Hc : consensus_counts (collect_advice advisors names) = (0, 0, length names)%nat).
  { unfold collect_advice. induction H as [|n names Hn _ IH]; [reflexivity|].
    cbn [map consensus_counts]. rewrite IH.
    assert (Hs : advice_signal_of (get_advice advisors n) = "none").
    { unfold advice_signal_of, get_advice.
      destruct Hn as [-> | [[msg ->] | ->]]; reflexivity. }
    rewrite Hs. reflexivity. }
  split; [exact Hc|]. unfold get_consensus_signal. rewrite Hc. reflexivity.
Qed.

Lemma consensus_all_failed_neutral_witness :
  get_consensus_signal (collect_advice {[ "trend" := Raises "timeout" ]}
    ["trend"; "technical"; "candle"; "persona"]) = "neutral".
Proof.
  refine (proj2 (consensus_all_failed_neutral
    ({[ "trend" := Raises "timeout" ]} : gmap string UpdateOutcome)
    ["trend"; "technical"; "candle"; "persona"] _)).
  constructor; [right; left; exists "timeout"; vm_compute; reflexivity|].
  repeat (constructor; [left; vm_compute; reflexivity|]).
  constructor.
Defined.
